(** * StreamVault: the transcription adapter [backend/scripts/transcribe.py]

    A shallow embedding of the script: the function [transcribe] and the
    entry point under [if __name__ == "__main__"], followed by the
    properties of the adapter's observable contract.

    The two speech-recognition libraries, the accelerator probe, the
    environment and the filesystem are outside the script.  They are
    gathered in a record [world] of oracles; every call the script makes
    to them is logged, with its arguments, in a trace of [event]s, so that
    "is invoked with", "is never invoked" and "prints" are statements about
    that trace.

    Python strings are embedded as [string]: a character is one code point
    below 256.  [print(json.dumps(d))] writes the JSON text of [d] on one
    line; the model records the object [d] itself, with its keys in
    insertion order, which is the order [json.dumps] emits them in. *)

From Stdlib Require Import String Ascii List Bool ZArith NArith Lia Floats.
Import ListNotations.
Local Open Scope list_scope.
Local Open Scope string_scope.

(** ** Python strings: [str.strip], [str.join], truth value *)

Module PyStr.

(** [str.isspace] on one character, for the code points below 256:
    U+0009..U+000D, U+001C..U+0020, U+0085 and U+00A0. *)
Definition isspace (c : ascii) : bool :=
  let n := N_of_ascii c in
  (((9 <=? n) && (n <=? 13)) || ((28 <=? n) && (n <=? 32))
   || (n =? 133) || (n =? 160))%N.

Fixpoint lstrip (s : string) : string :=
  match s with
  | EmptyString => EmptyString
  | String c s' => if isspace c then lstrip s' else s
  end.

Fixpoint rstrip (s : string) : string :=
  match s with
  | EmptyString => EmptyString
  | String c s' =>
      match rstrip s' with
      | EmptyString => if isspace c then EmptyString else String c EmptyString
      | r => String c r
      end
  end.

(** [s.strip()] *)
Definition strip (s : string) : string := rstrip (lstrip s).

(** [sep.join(parts)] *)
Fixpoint join (sep : string) (parts : list string) : string :=
  match parts with
  | [] => ""
  | [p] => p
  | p :: rest => p ++ sep ++ join sep rest
  end.

(** The truth value of a string: only the empty string is falsy. *)
Definition truthy (s : string) : bool :=
  match s with
  | EmptyString => false
  | String _ _ => true
  end.

(** Every character of [s] is whitespace. *)
Fixpoint all_space (s : string) : bool :=
  match s with
  | EmptyString => true
  | String c s' => isspace c && all_space s'
  end.

(** The last character of a string, when it has one. *)
Fixpoint last_char (s : string) : option ascii :=
  match s with
  | EmptyString => None
  | String c EmptyString => Some c
  | String _ s' => last_char s'
  end.

Definition first_char (s : string) : option ascii :=
  match s with
  | EmptyString => None
  | String c _ => Some c
  end.

Definition is_space_opt (o : option ascii) : bool :=
  match o with
  | None => false
  | Some c => isspace c
  end.

(** [t] is [s] trimmed of leading and trailing whitespace: [s] is [t]
    between two runs of whitespace, and [t] neither starts nor ends with
    a whitespace character. *)
Definition trimmed_of (s t : string) : Prop :=
  (exists l r, s = l ++ t ++ r /\ all_space l = true /\ all_space r = true)
  /\ is_space_opt (first_char t) = false
  /\ is_space_opt (last_char t) = false.

End PyStr.

(** ** Python values, dictionaries and exceptions *)

(** The values the script stores in the dictionaries it prints. *)
Inductive pyvalue : Type :=
| PyNone
| PyBool (b : bool)
| PyStr (s : string)
| PyFloat (f : float).

(** A dictionary with string keys, in insertion order. *)
Definition dict : Type := list (string * pyvalue).

Fixpoint dict_get (d : dict) (k : string) : option pyvalue :=
  match d with
  | [] => None
  | (k', v) :: d' => if String.eqb k k' then Some v else dict_get d' k
  end.

Definition keys (d : dict) : list string := map fst d.

(** The place of an exception in the class hierarchy, as far as the
    [except] clauses of the script tell classes apart. *)
Inductive exc_class : Type :=
| ImportError      (* ImportError and its subclasses, e.g. ModuleNotFoundError *)
| Exception        (* any other subclass of Exception *)
| BaseException.   (* outside Exception: KeyboardInterrupt, SystemExit, ... *)

(** A raised exception: its class and [str(e)]. *)
Record exn : Type := mkExn { exn_class : exc_class; exn_str : string }.

(** [except ImportError] *)
Definition isinstance_ImportError (e : exn) : bool :=
  match exn_class e with
  | ImportError => true
  | _ => false
  end.

(** [except Exception] *)
Definition isinstance_Exception (e : exn) : bool :=
  match exn_class e with
  | ImportError | Exception => true
  | BaseException => false
  end.

(** A bare [except:] *)
Definition isinstance_any (e : exn) : bool := true.

(** ** The outside world *)

Inductive outcome (A : Type) : Type :=
| Normal (a : A)
| Raised (e : exn).
Arguments Normal {A} a.
Arguments Raised {A} e.

(** One item of the lazy sequence returned by the primary backend. *)
Record Segment : Type := mkSegment { text : string }.

(** The generator of segments: it yields [yielded] in order, then stops,
    or raises [failure] where inference fails part-way. *)
Record segment_stream : Type := mkStream {
  yielded : list Segment;
  failure : option exn
}.

(** The metadata returned with the segments ([info]). *)
Record TranscriptionInfo : Type := mkInfo {
  info_language : option string;   (* [None] models Python's None *)
  info_duration : float
}.

(** An instance of [faster_whisper.WhisperModel]: its method [transcribe]
    with the arguments [audio, language, beam_size, word_timestamps,
    vad_filter]. *)
Record fw_model : Type := mkFwModel {
  fw_transcribe :
    string -> option string -> Z -> bool -> bool ->
    outcome (segment_stream * TranscriptionInfo)
}.

(** The dictionary returned by the secondary backend: [result["text"]]
    and the key ["language"], which may be missing. *)
Record whisper_result : Type := mkWhisperResult {
  wr_text : string;
  wr_language : option string
}.

(** A model of the [whisper] library: [model.transcribe(audio, language)]. *)
Record whisper_model : Type := mkWhisperModel {
  w_transcribe : string -> string -> outcome whisper_result
}.

Record world : Type := mkWorld {
  argv : list string;                        (* sys.argv *)
  path_exists : string -> bool;              (* os.path.exists *)
  environ : string -> option string;         (* os.environ *)
  import_faster_whisper : option exn;        (* [None]: the import succeeds *)
  import_torch : option exn;
  mps_is_available : outcome bool;           (* torch.backends.mps.is_available() *)
  WhisperModel : string -> string -> string -> outcome fw_model;
  import_whisper : option exn;
  load_model : string -> outcome whisper_model   (* whisper.load_model *)
}.

(** What the script does to the world, in order. *)
Inductive event : Type :=
| EvImportFasterWhisper
| EvImportTorch
| EvMpsIsAvailable
| EvWhisperModel (model_size device compute_type : string)
| EvFwTranscribe (audio_path : string) (language : option string)
                 (beam_size : Z) (word_timestamps vad_filter : bool)
| EvImportWhisper
| EvLoadModel (name : string)
| EvWhisperTranscribe (audio_path language : string)
| EvPathExists (path : string)
| EvPrint (d : dict).

(** ** Computations: a trace and a value or a raised exception *)

Definition py (A : Type) : Type := list event * outcome A.

Definition ret {A} (a : A) : py A := ([], Normal a).

Definition raise {A} (e : exn) : py A := ([], Raised e).

Definition bind {A B} (m : py A) (k : A -> py B) : py B :=
  match m with
  | (tr, Normal a) => let (tr', r) := k a in ((tr ++ tr')%list, r)
  | (tr, Raised e) => (tr, Raised e)
  end.

Notation "x <- m ;; k" := (bind m (fun x => k))
  (at level 61, m at next level, right associativity).
Notation "' pat <- m ;; k" := (bind m (fun x => match x with pat => k end))
  (at level 61, pat pattern, m at next level, right associativity).
Notation "m ;; k" := (bind m (fun _ => k))
  (at level 61, right associativity).

(** An [import] statement. *)
Definition import_ (ev : event) (r : option exn) : py unit :=
  ([ev], match r with None => Normal tt | Some e => Raised e end).

(** A call into a library, logged as [ev]. *)
Definition call {A} (ev : event) (r : outcome A) : py A := ([ev], r).

(** [try: body  except C1 as e: h1  except C2 as e: h2 ...]: the first
    clause whose class test accepts the exception handles it; an exception
    raised by a handler is not handled by its sibling clauses. *)
Fixpoint select_handler {A} (handlers : list ((exn -> bool) * (exn -> py A)))
    (e : exn) : option (exn -> py A) :=
  match handlers with
  | [] => None
  | (test, h) :: rest => if test e then Some h else select_handler rest e
  end.

Definition try_except {A} (body : py A)
    (handlers : list ((exn -> bool) * (exn -> py A))) : py A :=
  match body with
  | (tr, Normal a) => (tr, Normal a)
  | (tr, Raised e) =>
      match select_handler handlers e with
      | Some h => let (tr', r) := h e in ((tr ++ tr')%list, r)
      | None => (tr, Raised e)
      end
  end.

(** ** [transcribe] *)

(** [os.environ.get(key, default)] *)
Definition environ_get (w : world) (key default : string) : string :=
  match environ w key with
  | Some v => v
  | None => default
  end.

(** Lines 26-32: the probe for Metal/MPS.  It receives and returns the two
    variables [device] and [compute_type] it may assign. *)
Definition probe_mps (w : world) (device compute_type : string)
  : py (string * string) :=
  try_except
    (import_ EvImportTorch (import_torch w) ;;
     available <- call EvMpsIsAvailable (mps_is_available w) ;;
     if available : bool
     then ret ("cpu", "int8")
     else ret (device, compute_type))
    [(isinstance_any, fun _ => ret (device, compute_type))].

(** Lines 45-47: the loop over the generator [segments], appending each
    stripped text to [text_parts]. *)
Fixpoint collect_segments (segments : list Segment) (stop : option exn)
    (text_parts : list string) : py (list string) :=
  match segments with
  | [] =>
      match stop with
      | None => ret text_parts
      | Some e => raise e
      end
  | segment :: rest =>
      collect_segments rest stop (text_parts ++ [PyStr.strip (text segment)])%list
  end.

(** Lines 15-56: the body of the outer [try]. *)
Definition primary (w : world) (audio_path language : string) : py dict :=
  import_ EvImportFasterWhisper (import_faster_whisper w) ;;
  let model_size := environ_get w "WHISPER_MODEL" "base" in
  let device := "cpu" in
  let compute_type := "int8" in
  '(device, compute_type) <- probe_mps w device compute_type ;;
  model <- call (EvWhisperModel model_size device compute_type)
                (WhisperModel w model_size device compute_type) ;;
  let hint := if PyStr.truthy language then Some language else None in
  '(segments, info) <- call (EvFwTranscribe audio_path hint 5 false true)
                            (fw_transcribe model audio_path hint 5 false true) ;;
  text_parts <- collect_segments (yielded segments) (failure segments) [] ;;
  let full_text := PyStr.join " " text_parts in
  ret [ ("success", PyBool true);
        ("text", PyStr full_text);
        ("language",
         PyStr (match info_language info with
                | Some l => if PyStr.truthy l then l else language
                | None => language
                end));
        ("duration", PyFloat (info_duration info)) ].

(** Lines 60-76: the handler of [except ImportError]. *)
Definition fallback (w : world) (audio_path language : string) : py dict :=
  try_except
    (import_ EvImportWhisper (import_whisper w) ;;
     model <- call (EvLoadModel "base") (load_model w "base") ;;
     result <- call (EvWhisperTranscribe audio_path language)
                    (w_transcribe model audio_path language) ;;
     ret [ ("success", PyBool true);
           ("text", PyStr (PyStr.strip (wr_text result)));
           ("language",
            PyStr (match wr_language result with
                   | Some l => l
                   | None => language
                   end)) ])
    [(isinstance_Exception,
      fun e => ret [ ("success", PyBool false);
                     ("error", PyStr ("Whisper not available: " ++ exn_str e));
                     ("text", PyStr "") ])].

Definition transcribe (w : world) (audio_path language : string) : py dict :=
  try_except
    (primary w audio_path language)
    [(isinstance_ImportError, fun _ => fallback w audio_path language);
     (isinstance_Exception,
      fun e => ret [ ("success", PyBool false);
                     ("error", PyStr (exn_str e));
                     ("text", PyStr "") ])].

(** ** The entry point *)

(** How the script ends.  [Exit status]: the script ends itself, by its
    own [sys.exit(status)] or by reaching its last line (status 0).
    [Uncaught e]: the script is left by the exception [e], which nothing
    in it catches; the exit status of the process is then the
    interpreter's affair (the code of a [SystemExit], 1 for another
    exception) and is not part of this model. *)
Inductive termination : Type :=
| Exit (status : Z)
| Uncaught (e : exn).

Definition usage_error : dict :=
  [ ("success", PyBool false);
    ("error", PyStr "Usage: transcribe.py <audio_file> [language]") ].

Definition file_not_found (audio_file : string) : dict :=
  [ ("success", PyBool false);
    ("error", PyStr ("File not found: " ++ audio_file)) ].

(** Lines 86-99. *)
Definition main (w : world) : list event * termination :=
  if (length (argv w) <? 2)%nat then
    ([EvPrint usage_error], Exit 1)
  else
    let audio_file := nth 1 (argv w) "" in
    let language := if (2 <? length (argv w))%nat then nth 2 (argv w) "" else "en" in
    if negb (path_exists w audio_file) then
      ([EvPathExists audio_file; EvPrint (file_not_found audio_file)], Exit 1)
    else
      match transcribe w audio_file language with
      | (tr, Normal result) =>
          ((EvPathExists audio_file :: tr ++ [EvPrint result])%list, Exit 0)
      | (tr, Raised e) =>
          ((EvPathExists audio_file :: tr)%list, Uncaught e)
      end.

(** Standard output: the objects printed, one line each, in order. *)
Fixpoint stdout (tr : list event) : list dict :=
  match tr with
  | [] => []
  | EvPrint d :: tr' => d :: stdout tr'
  | _ :: tr' => stdout tr'
  end.

(** ** Observers of a trace *)

(** The calls that touch the secondary backend. *)
Definition is_secondary (ev : event) : bool :=
  match ev with
  | EvImportWhisper | EvLoadModel _ | EvWhisperTranscribe _ _ => true
  | _ => false
  end.

(** The calls that touch the primary backend. *)
Definition is_primary (ev : event) : bool :=
  match ev with
  | EvImportFasterWhisper | EvWhisperModel _ _ _
  | EvFwTranscribe _ _ _ _ _ => true
  | _ => false
  end.

(** The calls of the accelerator probe. *)
Definition is_probe (ev : event) : bool :=
  match ev with
  | EvImportTorch | EvMpsIsAvailable => true
  | _ => false
  end.

(** Any call into a backend or into the probe: everything [transcribe]
    can do to the world. *)
Definition is_backend (ev : event) : bool :=
  is_primary ev || is_secondary ev || is_probe ev.

(** The trace the probe leaves: [is_available] is reached only when
    [import torch] succeeds. *)
Definition probe_trace (w : world) : list event :=
  match import_torch w with
  | Some _ => [EvImportTorch]
  | None => [EvImportTorch; EvMpsIsAvailable]
  end.

(** [w] with another outcome of the probe. *)
Definition with_probe (w : world) (torch : option exn) (mps : outcome bool)
  : world :=
  mkWorld (argv w) (path_exists w) (environ w) (import_faster_whisper w)
          torch mps (WhisperModel w) (import_whisper w) (load_model w).

(** The language hint [transcribe] passes to the primary backend. *)
Definition language_hint (language : string) : option string :=
  if PyStr.truthy language then Some language else None.

(** The dictionary both [except Exception] clauses of [transcribe] build. *)
Definition failure_result (message : string) : dict :=
  [ ("success", PyBool false); ("error", PyStr message); ("text", PyStr "") ].

(** The exception the primary backend raises in a run of [transcribe] whose
    import of the library succeeded, if it raises one: during the
    construction of the model, in the call of [model.transcribe], or while
    the segments are consumed. *)
Definition primary_error (w : world) (audio_path language : string)
  : option exn :=
  match WhisperModel w (environ_get w "WHISPER_MODEL" "base") "cpu" "int8" with
  | Raised e => Some e
  | Normal model =>
      match fw_transcribe model audio_path (language_hint language) 5 false true with
      | Raised e => Some e
      | Normal (segments, _) => failure segments
      end
  end.

(** The exception the secondary backend raises in the fallback, if it
    raises one: at its import, in [load_model] or in [model.transcribe]. *)
Definition secondary_error (w : world) (audio_path language : string)
  : option exn :=
  match import_whisper w with
  | Some e => Some e
  | None =>
      match load_model w "base" with
      | Raised e => Some e
      | Normal model =>
          match w_transcribe model audio_path language with
          | Raised e => Some e
          | Normal _ => None
          end
      end
  end.

(** What a call logged by [transcribe w audio_path language] must look
    like: the arguments each library function is called with. *)
Definition expected_call (w : world) (audio_path language : string)
    (ev : event) : Prop :=
  match ev with
  | EvImportFasterWhisper | EvImportTorch | EvMpsIsAvailable
  | EvImportWhisper => True
  | EvWhisperModel model_size device compute_type =>
      model_size = environ_get w "WHISPER_MODEL" "base"
      /\ device = "cpu" /\ compute_type = "int8"
  | EvFwTranscribe path hint beam_size word_timestamps vad_filter =>
      path = audio_path /\ hint = language_hint language
      /\ beam_size = 5%Z /\ word_timestamps = false /\ vad_filter = true
  | EvLoadModel name => name = "base"
  | EvWhisperTranscribe path lang => path = audio_path /\ lang = language
  | EvPathExists _ | EvPrint _ => False
  end.

(** The events of a run up to and including the construction of the
    primary model ... *)
Definition upto_model (w : world) : list event :=
  (EvImportFasterWhisper :: probe_trace w
     ++ [EvWhisperModel (environ_get w "WHISPER_MODEL" "base") "cpu" "int8"])%list.

(** ... and up to the call of its [transcribe]. *)
Definition upto_inference (w : world) (audio_path language : string)
  : list event :=
  (upto_model w
     ++ [EvFwTranscribe audio_path (language_hint language) 5 false true])%list.

(** The dictionary of lines 51-56. *)
Definition primary_result (language : string) (segments : list Segment)
    (info : TranscriptionInfo) : dict :=
  [ ("success", PyBool true);
    ("text", PyStr (PyStr.join " " (map (fun s => PyStr.strip (text s)) segments)));
    ("language",
     PyStr (match info_language info with
            | Some l => if PyStr.truthy l then l else language
            | None => language
            end));
    ("duration", PyFloat (info_duration info)) ].

(** The dictionary of lines 66-70. *)
Definition secondary_result (language : string) (result : whisper_result)
  : dict :=
  [ ("success", PyBool true);
    ("text", PyStr (PyStr.strip (wr_text result)));
    ("language",
     PyStr (match wr_language result with
            | Some l => l
            | None => language
            end)) ].

(** What the clause [except Exception as e] of the fallback makes of an
    exception raised in its [try]. *)
Definition fallback_handled (e : exn) : outcome dict :=
  if isinstance_Exception e
  then Normal (failure_result ("Whisper not available: " ++ exn_str e))
  else Raised e.

(** ** The shape of a printed object *)

(** The record TranscriptionResult of the specification (section 3), as a
    test on a dictionary.  The keys are among [success], [text],
    [language], [duration] and [error], none twice; [success] is a boolean
    and [text] a string, both always present.  When [success] is true the
    fields of a transcription are populated and [error] is not: [language]
    is present and a string, [duration] is a number when present, there is
    no [error].  When [success] is false it is the other way round:
    [error] is present and a string, [text] is the empty string, and there
    is neither [language] nor [duration]. *)
Definition result_fields : list string :=
  ["success"; "text"; "language"; "duration"; "error"].

Fixpoint distinct (ks : list string) : bool :=
  match ks with
  | [] => true
  | k :: ks' => negb (existsb (String.eqb k) ks') && distinct ks'
  end.

Definition conforms (d : dict) : bool :=
  forallb (fun k => existsb (String.eqb k) result_fields) (keys d)
  && distinct (keys d)
  && match dict_get d "success", dict_get d "text" with
     | Some (PyBool true), Some (PyStr _) =>
         match dict_get d "language", dict_get d "error" with
         | Some (PyStr _), None =>
             match dict_get d "duration" with
             | None | Some (PyFloat _) => true
             | Some _ => false
             end
         | _, _ => false
         end
     | Some (PyBool false), Some (PyStr t) =>
         negb (PyStr.truthy t)
         && match dict_get d "error", dict_get d "language",
                  dict_get d "duration" with
            | Some (PyStr _), None, None => true
            | _, _, _ => false
            end
     | _, _ => false
     end.

(** The language the entry point passes to [transcribe]. *)
Definition effective_language (w : world) : string :=
  if (2 <? length (argv w))%nat then nth 2 (argv w) "" else "en".

(** Lines 98-99, given the run of [transcribe]: its result is printed
    and the script ends; an exception it lets through ends the process. *)
Definition report (audio_file : string) (r : py dict)
  : list event * termination :=
  match r with
  | (tr, Normal result) =>
      ((EvPathExists audio_file :: tr ++ [EvPrint result])%list, Exit 0)
  | (tr, Raised e) => ((EvPathExists audio_file :: tr)%list, Uncaught e)
  end.

(** [w] started with another command line. *)
Definition with_argv (w : world) (args : list string) : world :=
  mkWorld args (path_exists w) (environ w) (import_faster_whisper w)
          (import_torch w) (mps_is_available w) (WhisperModel w)
          (import_whisper w) (load_model w).

(** ** Concrete worlds *)

Module Scenario.

(** The scenario [speech.wav] of the specification: two segments,
    detected language ["en"], duration 3.2. *)
#[warnings="-inexact-float"]
Definition hello_model : fw_model :=
  mkFwModel (fun _ _ _ _ _ =>
    Normal (mkStream [mkSegment " Hello "; mkSegment "world. "] None,
            mkInfo (Some "en") 3.2%float)).

Definition base_whisper : whisper_model :=
  mkWhisperModel (fun _ language =>
    Normal (mkWhisperResult " hi there " (Some language))).

Definition no_torch : option exn :=
  Some (mkExn ImportError "No module named 'torch'").

Definition speech : world :=
  mkWorld ["transcribe.py"; "speech.wav"]
          (fun p => String.eqb p "speech.wav")
          (fun _ => None)
          None no_torch (Normal false)
          (fun _ _ _ => Normal hello_model)
          None (fun _ => Normal base_whisper).

(** A recording without speech: the primary backend yields no segment and
    detects no language. *)
Definition silent_model : fw_model :=
  mkFwModel (fun _ _ _ _ _ =>
    Normal (mkStream [] None, mkInfo None 1.5%float)).

Definition silence : world :=
  mkWorld ["transcribe.py"; "silence.wav"; ""]
          (fun _ => true)
          (fun _ => Some "tiny")
          None None (Normal true)
          (fun _ _ _ => Normal silent_model)
          None (fun _ => Normal base_whisper).

(** No argument beyond the program name. *)
Definition no_argument : world :=
  mkWorld ["transcribe.py"]
          (fun _ => true) (fun _ => None)
          None no_torch (Normal false)
          (fun _ _ _ => Normal hello_model)
          None (fun _ => Normal base_whisper).

(** The scenario [missing.wav] of the specification. *)
Definition missing : world :=
  mkWorld ["transcribe.py"; "missing.wav"]
          (fun _ => false) (fun _ => None)
          None no_torch (Normal false)
          (fun _ _ _ => Normal hello_model)
          None (fun _ => Normal base_whisper).

(** Three arguments after the program name. *)
Definition extra_arguments : world :=
  mkWorld ["transcribe.py"; "speech.wav"; "fr"; "--verbose"; "x"]
          (fun _ => true) (fun _ => None)
          None no_torch (Normal false)
          (fun _ _ _ => Normal hello_model)
          None (fun _ => Normal base_whisper).

(** [faster_whisper] imports, but constructing the model fails with an
    exception that is not an [ImportError]. *)
Definition broken_model : world :=
  mkWorld ["transcribe.py"; "speech.wav"]
          (fun _ => true) (fun _ => None)
          None no_torch (Normal false)
          (fun _ _ _ => Raised (mkExn Exception "Invalid model size 'base'"))
          None (fun _ => Normal base_whisper).

(** [faster_whisper] imports, but constructing the model raises an
    [ImportError] (a dependency it loads on demand is missing), while the
    [whisper] library is installed and works. *)
Definition late_import_error : world :=
  mkWorld ["transcribe.py"; "speech.wav"]
          (fun _ => true) (fun _ => None)
          None no_torch (Normal false)
          (fun _ _ _ => Raised (mkExn ImportError "No module named 'ctranslate2'"))
          None (fun _ => Normal base_whisper).

(** Neither library is installed. *)
Definition no_backend : world :=
  mkWorld ["transcribe.py"; "speech.wav"; "de"]
          (fun _ => true) (fun _ => None)
          (Some (mkExn ImportError "No module named 'faster_whisper'"))
          no_torch (Normal false)
          (fun _ _ _ => Normal hello_model)
          (Some (mkExn ImportError "No module named 'whisper'"))
          (fun _ => Normal base_whisper).

(** [faster_whisper] is not installed and [whisper] is. *)
Definition only_whisper : world :=
  mkWorld ["transcribe.py"; "speech.wav"; "de"]
          (fun _ => true) (fun _ => None)
          (Some (mkExn ImportError "No module named 'faster_whisper'"))
          no_torch (Normal false)
          (fun _ _ _ => Normal hello_model)
          None (fun _ => Normal base_whisper).

End Scenario.

(** A trace without the calls of the accelerator probe. *)
Definition without_probe (tr : list event) : list event :=
  filter (fun ev => negb (is_probe ev)) tr.

(** ** Further observers and worlds *)

(** [w] with another environment. *)
Definition with_environ (w : world) (env : string -> option string) : world :=
  mkWorld (argv w) (path_exists w) env (import_faster_whisper w)
          (import_torch w) (mps_is_available w) (WhisperModel w)
          (import_whisper w) (load_model w).

(** [w] with another outcome of the import of the primary library. *)
Definition with_primary_import (w : world) (r : option exn) : world :=
  mkWorld (argv w) (path_exists w) (environ w) r
          (import_torch w) (mps_is_available w) (WhisperModel w)
          (import_whisper w) (load_model w).

(** The entry point of the outside world an event goes through. *)
Inductive entry : Type :=
| ImportFasterWhisper | ImportTorch | MpsIsAvailable | ModelConstructor
| ModelTranscribe | ImportWhisper | LoadModel | WhisperTranscribe
| PathExists | Print.

Definition entry_of (ev : event) : entry :=
  match ev with
  | EvImportFasterWhisper => ImportFasterWhisper
  | EvImportTorch => ImportTorch
  | EvMpsIsAvailable => MpsIsAvailable
  | EvWhisperModel _ _ _ => ModelConstructor
  | EvFwTranscribe _ _ _ _ _ => ModelTranscribe
  | EvImportWhisper => ImportWhisper
  | EvLoadModel _ => LoadModel
  | EvWhisperTranscribe _ _ => WhisperTranscribe
  | EvPathExists _ => PathExists
  | EvPrint _ => Print
  end.

(** A segment without a character other than whitespace. *)
Definition blank (segment : Segment) : bool :=
  PyStr.all_space (text segment).

Module Scenario2.

(** Inference is interrupted from the keyboard. *)
Definition interrupted_model : fw_model :=
  mkFwModel (fun _ _ _ _ _ => Raised (mkExn BaseException "KeyboardInterrupt")).

Definition interrupted : world :=
  mkWorld ["transcribe.py"; "speech.wav"]
          (fun _ => true) (fun _ => None)
          None Scenario.no_torch (Normal false)
          (fun _ _ _ => Normal interrupted_model)
          None (fun _ => Normal Scenario.base_whisper).

(** Importing [faster_whisper] fails, but not with an [ImportError]: a
    shared library it links against cannot be loaded. *)
Definition broken_import : world :=
  mkWorld ["transcribe.py"; "speech.wav"]
          (fun _ => true) (fun _ => None)
          (Some (mkExn Exception "libcudnn.so.8: cannot open shared object file"))
          None (Normal true)
          (fun _ _ _ => Normal Scenario.hello_model)
          None (fun _ => Normal Scenario.base_whisper).

(** Decoding fails after two segments were produced. *)
Definition truncated_model : fw_model :=
  mkFwModel (fun _ _ _ _ _ =>
    Normal (mkStream [mkSegment " Hello "; mkSegment "world. "]
                     (Some (mkExn Exception "Invalid data found when processing input")),
            mkInfo (Some "en") 1.5%float)).

Definition truncated : world :=
  mkWorld ["transcribe.py"; "speech.wav"]
          (fun _ => true) (fun _ => Some "small")
          None None (Normal false)
          (fun _ _ _ => Normal truncated_model)
          None (fun _ => Normal Scenario.base_whisper).

(** The secondary backend answers without a ["language"] key. *)
Definition terse_whisper : whisper_model :=
  mkWhisperModel (fun _ _ => Normal (mkWhisperResult "  bonjour " None)).

Definition terse : world :=
  mkWorld ["transcribe.py"; "salut.wav"; "fr"]
          (fun _ => true) (fun _ => Some "large")
          (Some (mkExn ImportError "No module named 'faster_whisper'"))
          None (Normal true)
          (fun _ _ _ => Normal Scenario.hello_model)
          None (fun _ => Normal terse_whisper).

(** The language argument is given and empty. *)
Definition empty_language : world :=
  mkWorld ["transcribe.py"; "speech.wav"; ""]
          (fun _ => true) (fun _ => None)
          None Scenario.no_torch (Normal false)
          (fun _ _ _ => Normal Scenario.hello_model)
          None (fun _ => Normal Scenario.base_whisper).

End Scenario2.

(** ** Properties of [strip] and [join] *)

Module PyStrFacts.
Import PyStr.

Lemma append_empty_r (s : string) : s ++ "" = s.
Proof. induction s as [|c s IH]; simpl; [reflexivity | now rewrite IH]. Qed.

Lemma all_space_app (l r : string) :
  all_space (l ++ r) = all_space l && all_space r.
Proof.
  induction l as [|c l IH]; simpl.
  - reflexivity.
  - rewrite IH. now rewrite andb_assoc.
Qed.

Lemma lstrip_split (s : string) :
  exists l, s = l ++ lstrip s /\ all_space l = true.
Proof.
  induction s as [|c s [l [Hs Hl]]]; simpl.
  - exists "". split; reflexivity.
  - destruct (isspace c) eqn:Hc.
    + exists (String c l). simpl. rewrite Hc, Hl. split; [now rewrite <- Hs | reflexivity].
    + exists "". split; reflexivity.
Qed.

Lemma lstrip_first (s : string) :
  is_space_opt (first_char (lstrip s)) = false.
Proof.
  induction s as [|c s IH]; simpl.
  - reflexivity.
  - destruct (isspace c) eqn:Hc; [exact IH | simpl; exact Hc].
Qed.

Lemma rstrip_split (s : string) :
  exists r, s = rstrip s ++ r /\ all_space r = true.
Proof.
  induction s as [|c s [r [Hs Hr]]]; simpl.
  - exists "". split; reflexivity.
  - destruct (rstrip s) as [|c' t] eqn:Ht.
    + simpl in Hs. destruct (isspace c) eqn:Hc.
      * exists (String c s). simpl. rewrite Hc. subst s. rewrite Hr. now split.
      * exists r. simpl. split; [now rewrite <- Hs | exact Hr].
    + exists r. split; [simpl; now rewrite Hs at 1 | exact Hr].
Qed.

Lemma rstrip_last (s : string) :
  is_space_opt (last_char (rstrip s)) = false.
Proof.
  induction s as [|c s IH]; simpl.
  - reflexivity.
  - destruct (rstrip s) as [|c' t] eqn:Ht.
    + destruct (isspace c) eqn:Hc; simpl; [reflexivity | exact Hc].
    + exact IH.
Qed.

Lemma rstrip_first (s : string) :
  is_space_opt (first_char s) = false ->
  is_space_opt (first_char (rstrip s)) = false.
Proof.
  destruct s as [|c s]; simpl.
  - reflexivity.
  - intros Hc. destruct (rstrip s); [rewrite Hc|]; simpl; auto.
Qed.

(** [strip] trims: what it returns is its argument without a leading and
    a trailing run of whitespace. *)
Lemma strip_trimmed (s : string) : trimmed_of s (strip s).
Proof.
  unfold trimmed_of, strip. split; [|split].
  - destruct (lstrip_split s) as [l [Hs Hl]].
    destruct (rstrip_split (lstrip s)) as [r [Ht Hr]].
    exists l, r. split; [|split; assumption].
    rewrite <- Ht. exact Hs.
  - apply rstrip_first, lstrip_first.
  - apply rstrip_last.
Qed.

Lemma lstrip_all_space (l s : string) :
  all_space l = true -> lstrip (l ++ s) = lstrip s.
Proof.
  induction l as [|c l IH]; simpl; intros H.
  - reflexivity.
  - apply andb_prop in H as [Hc Hl]. rewrite Hc. auto.
Qed.

Lemma rstrip_all_space (r : string) :
  all_space r = true -> rstrip r = "".
Proof.
  induction r as [|c r IH]; simpl; intros H.
  - reflexivity.
  - apply andb_prop in H as [Hc Hr]. now rewrite (IH Hr), Hc.
Qed.

Lemma rstrip_keeps (t r : string) :
  is_space_opt (last_char t) = false -> all_space r = true ->
  rstrip (t ++ r) = t.
Proof.
  intros Ht Hr. induction t as [|c t IH]; simpl.
  - now apply rstrip_all_space.
  - destruct t as [|c' t'].
    + simpl in *. rewrite (rstrip_all_space r Hr). now rewrite Ht.
    + rewrite IH by exact Ht. reflexivity.
Qed.

(** ... and nothing else does: trimming determines [strip]. *)
Lemma trimmed_unique (s t : string) : trimmed_of s t -> t = strip s.
Proof.
  intros [[l [r [Hs [Hl Hr]]]] [Hfirst Hlast]]. subst s. unfold strip.
  rewrite (lstrip_all_space l _ Hl).
  destruct t as [|c t].
  - simpl. destruct (lstrip_split r) as [l' [Hr' _]].
    assert (all_space (lstrip r) = true) as Ha.
    { rewrite Hr' in Hr. rewrite all_space_app in Hr.
      now apply andb_prop in Hr as [_ ?]. }
    now rewrite rstrip_all_space.
  - simpl in Hfirst. change (String c t ++ r) with (String c (t ++ r)).
    cbn [lstrip]. rewrite Hfirst.
    change (String c (t ++ r)) with (String c t ++ r).
    symmetry. now apply rstrip_keeps.
Qed.

Lemma strip_idempotent (s : string) : strip (strip s) = strip s.
Proof. symmetry. apply trimmed_unique.
  destruct (strip_trimmed s) as [_ [Hf Hl]].
  split; [|split; assumption].
  exists "", "". split; [|split; reflexivity]. simpl.
  now rewrite append_empty_r.
Qed.

Lemma join_nil (sep : string) : join sep [] = "".
Proof. reflexivity. Qed.

Lemma join_cons (sep p q : string) (rest : list string) :
  join sep (p :: q :: rest) = p ++ sep ++ join sep (q :: rest).
Proof. reflexivity. Qed.

End PyStrFacts.

(** ** The scenario of the specification, run *)

#[warnings="-inexact-float"]
Example speech_run :
  main Scenario.speech =
  ([EvPathExists "speech.wav"; EvImportFasterWhisper; EvImportTorch;
    EvWhisperModel "base" "cpu" "int8";
    EvFwTranscribe "speech.wav" (Some "en") 5 false true;
    EvPrint [("success", PyBool true); ("text", PyStr "Hello world.");
             ("language", PyStr "en"); ("duration", PyFloat 3.2%float)]],
   Exit 0).
Proof. vm_compute. reflexivity. Qed.

(** ** Running [transcribe]: one equation per path *)

Section Runs.

Variable w : world.
Variables audio_path language : string.

Let model_size : string := environ_get w "WHISPER_MODEL" "base".

(** The probe returns, whatever happens inside it, and leaves [device] and
    [compute_type] as they were set before it. *)
Lemma probe_mps_run :
  probe_mps w "cpu" "int8" = (probe_trace w, Normal ("cpu", "int8")).
Proof.
  unfold probe_mps, probe_trace, try_except, bind, import_, call, ret.
  destruct (import_torch w) as [e|]; simpl.
  - reflexivity.
  - destruct (mps_is_available w) as [[|]|e]; reflexivity.
Qed.

Lemma collect_segments_ok (segments : list Segment) (text_parts : list string) :
  collect_segments segments None text_parts =
  ret (text_parts ++ map (fun s => PyStr.strip (text s)) segments)%list.
Proof.
  revert text_parts. induction segments as [|s rest IH]; intros acc; simpl.
  - now rewrite app_nil_r.
  - rewrite IH. now rewrite <- app_assoc.
Qed.

Lemma collect_segments_raise (segments : list Segment) (e : exn)
    (text_parts : list string) :
  collect_segments segments (Some e) text_parts = raise e.
Proof.
  revert text_parts. induction segments as [|s rest IH]; intros acc; simpl; auto.
Qed.

Lemma primary_import_fails (e : exn) :
  import_faster_whisper w = Some e ->
  primary w audio_path language = ([EvImportFasterWhisper], Raised e).
Proof. intros H. unfold primary, bind, import_. now rewrite H. Qed.

Lemma primary_model_fails (e : exn) :
  import_faster_whisper w = None ->
  WhisperModel w model_size "cpu" "int8" = Raised e ->
  primary w audio_path language = (upto_model w, Raised e).
Proof.
  intros Hi Hm. unfold primary. rewrite Hi, probe_mps_run.
  unfold bind, import_, call. fold model_size. now rewrite Hm.
Qed.

Lemma primary_inference_fails (m : fw_model) (e : exn) :
  import_faster_whisper w = None ->
  WhisperModel w model_size "cpu" "int8" = Normal m ->
  fw_transcribe m audio_path (language_hint language) 5 false true = Raised e ->
  primary w audio_path language = (upto_inference w audio_path language, Raised e).
Proof.
  intros Hi Hm Ht. unfold primary. rewrite Hi, probe_mps_run.
  unfold bind, import_, call. fold model_size. rewrite Hm.
  fold (language_hint language). rewrite Ht.
  unfold upto_inference, upto_model. simpl.
  rewrite <- ?app_assoc, ?app_nil_r. reflexivity.
Qed.

Lemma primary_stream_fails (m : fw_model) (segments : list Segment)
    (info : TranscriptionInfo) (e : exn) :
  import_faster_whisper w = None ->
  WhisperModel w model_size "cpu" "int8" = Normal m ->
  fw_transcribe m audio_path (language_hint language) 5 false true
    = Normal (mkStream segments (Some e), info) ->
  primary w audio_path language = (upto_inference w audio_path language, Raised e).
Proof.
  intros Hi Hm Ht. unfold primary. rewrite Hi, probe_mps_run.
  unfold bind, import_, call. fold model_size. rewrite Hm.
  fold (language_hint language). rewrite Ht. simpl.
  rewrite collect_segments_raise. unfold raise.
  unfold upto_inference, upto_model. simpl.
  rewrite <- ?app_assoc, ?app_nil_r. reflexivity.
Qed.

Lemma primary_succeeds (m : fw_model) (segments : list Segment)
    (info : TranscriptionInfo) :
  import_faster_whisper w = None ->
  WhisperModel w model_size "cpu" "int8" = Normal m ->
  fw_transcribe m audio_path (language_hint language) 5 false true
    = Normal (mkStream segments None, info) ->
  primary w audio_path language =
  (upto_inference w audio_path language,
   Normal (primary_result language segments info)).
Proof.
  intros Hi Hm Ht. unfold primary. rewrite Hi, probe_mps_run.
  unfold bind, import_, call. fold model_size. rewrite Hm.
  fold (language_hint language). rewrite Ht. simpl.
  rewrite collect_segments_ok. unfold ret. simpl.
  unfold upto_inference, upto_model. simpl.
  rewrite <- ?app_assoc, ?app_nil_r. reflexivity.
Qed.

End Runs.

(** ** Every run, as a decision tree over the answers of the world *)

Lemma primary_run (w : world) (audio_path language : string) :
  primary w audio_path language =
  match import_faster_whisper w with
  | Some e => ([EvImportFasterWhisper], Raised e)
  | None =>
      match WhisperModel w (environ_get w "WHISPER_MODEL" "base") "cpu" "int8" with
      | Raised e => (upto_model w, Raised e)
      | Normal model =>
          (upto_inference w audio_path language,
           match fw_transcribe model audio_path (language_hint language)
                               5 false true with
           | Raised e => Raised e
           | Normal (segments, info) =>
               match failure segments with
               | Some e => Raised e
               | None => Normal (primary_result language (yielded segments) info)
               end
           end)
      end
  end.
Proof.
  destruct (import_faster_whisper w) as [e|] eqn:Hi.
  - now apply primary_import_fails.
  - destruct (WhisperModel w _ "cpu" "int8") as [m|e] eqn:Hm.
    + destruct (fw_transcribe m _ _ 5%Z false true)
        as [[[segments [e|]] info]|e] eqn:Ht; simpl.
      * eapply primary_stream_fails; eassumption.
      * eapply primary_succeeds; eassumption.
      * eapply primary_inference_fails; eassumption.
    + now apply primary_model_fails.
Qed.

Lemma fallback_run (w : world) (audio_path language : string) :
  fallback w audio_path language =
  match import_whisper w with
  | Some e => ([EvImportWhisper], fallback_handled e)
  | None =>
      match load_model w "base" with
      | Raised e => ([EvImportWhisper; EvLoadModel "base"], fallback_handled e)
      | Normal model =>
          ([EvImportWhisper; EvLoadModel "base";
            EvWhisperTranscribe audio_path language],
           match w_transcribe model audio_path language with
           | Raised e => fallback_handled e
           | Normal result => Normal (secondary_result language result)
           end)
      end
  end.
Proof.
  unfold fallback, fallback_handled, try_except, bind, import_, call, ret.
  destruct (import_whisper w) as [e|]; cbn [select_handler].
  - destruct (isinstance_Exception e); reflexivity.
  - destruct (load_model w "base") as [m|e]; cbn [select_handler app].
    + destruct (w_transcribe m audio_path language) as [r|e];
        cbn [select_handler app]; [reflexivity|].
      destruct (isinstance_Exception e); reflexivity.
    + destruct (isinstance_Exception e); reflexivity.
Qed.

Lemma transcribe_run (w : world) (audio_path language : string) :
  transcribe w audio_path language =
  match primary w audio_path language with
  | (tr, Normal result) => (tr, Normal result)
  | (tr, Raised e) =>
      match exn_class e with
      | ImportError =>
          ((tr ++ fst (fallback w audio_path language))%list,
           snd (fallback w audio_path language))
      | Exception => (tr, Normal (failure_result (exn_str e)))
      | BaseException => (tr, Raised e)
      end
  end.
Proof.
  unfold transcribe, try_except.
  destruct (primary w audio_path language) as [tr [d|e]]; [reflexivity|].
  unfold select_handler, isinstance_ImportError, isinstance_Exception.
  destruct (exn_class e).
  - now destruct (fallback w audio_path language).
  - unfold ret. now rewrite app_nil_r.
  - reflexivity.
Qed.

(** ** The calls of a run carry the expected arguments *)

Section Calls.

Variable w : world.
Variables audio_path language : string.

Let expected := expected_call w audio_path language.

Lemma probe_trace_calls : Forall expected (probe_trace w).
Proof.
  unfold probe_trace. destruct (import_torch w); repeat constructor.
Qed.

Lemma upto_model_calls : Forall expected (upto_model w).
Proof.
  unfold upto_model. constructor; [exact I|].
  apply Forall_app. split; [apply probe_trace_calls|].
  repeat constructor.
Qed.

Lemma upto_inference_calls :
  Forall expected (upto_inference w audio_path language).
Proof.
  unfold upto_inference. apply Forall_app. split; [apply upto_model_calls|].
  repeat constructor.
Qed.

Lemma primary_calls : Forall expected (fst (primary w audio_path language)).
Proof.
  rewrite primary_run.
  destruct (import_faster_whisper w); [repeat constructor|].
  destruct (WhisperModel w _ _ _); simpl.
  - apply upto_inference_calls.
  - apply upto_model_calls.
Qed.

Lemma fallback_calls : Forall expected (fst (fallback w audio_path language)).
Proof.
  rewrite fallback_run.
  destruct (import_whisper w); [repeat constructor|].
  destruct (load_model w "base"); repeat constructor.
Qed.

Lemma transcribe_calls : Forall expected (fst (transcribe w audio_path language)).
Proof.
  rewrite transcribe_run. pose proof primary_calls as Hp.
  destruct (primary w audio_path language) as [tr [d|e]]; simpl in *; [exact Hp|].
  destruct (exn_class e); simpl; try exact Hp.
  apply Forall_app. split; [exact Hp | apply fallback_calls].
Qed.

End Calls.

(** [transcribe] prints nothing. *)
Lemma transcribe_silent (w : world) (audio_path language : string) :
  stdout (fst (transcribe w audio_path language)) = [].
Proof.
  pose proof (transcribe_calls w audio_path language) as H.
  induction H as [|ev tr Hev _ IH]; [reflexivity|].
  destruct ev; simpl; try exact IH; destruct Hev.
Qed.

Lemma stdout_app (tr tr' : list event) :
  stdout (tr ++ tr') = (stdout tr ++ stdout tr')%list.
Proof.
  induction tr as [|ev tr IH]; [reflexivity|].
  destruct ev; simpl; rewrite ?IH; reflexivity.
Qed.

(** No event of the primary path touches the secondary backend. *)
Lemma upto_inference_primary_only (w : world) (audio_path language : string) :
  existsb is_secondary (upto_inference w audio_path language) = false
  /\ existsb is_secondary (upto_model w) = false.
Proof.
  unfold upto_inference, upto_model, probe_trace.
  destruct (import_torch w); split; reflexivity.
Qed.

(** ** Successful runs of the primary backend *)

(** When the body of the outer [try] returns, the world has answered every
    call of the primary path and the stream of segments ended normally. *)
Lemma primary_returns_inv (w : world) (audio_path language : string)
    (tr : list event) (result : dict) :
  primary w audio_path language = (tr, Normal result) ->
  exists model segments info,
    import_faster_whisper w = None
    /\ WhisperModel w (environ_get w "WHISPER_MODEL" "base") "cpu" "int8"
       = Normal model
    /\ fw_transcribe model audio_path (language_hint language) 5 false true
       = Normal (mkStream segments None, info)
    /\ tr = upto_inference w audio_path language
    /\ result = primary_result language segments info.
Proof.
  rewrite primary_run.
  destruct (import_faster_whisper w) as [e|]; [discriminate|].
  destruct (WhisperModel w _ _ _) as [m|e]; [|discriminate].
  destruct (fw_transcribe m _ _ _ _ _) as [[[segments [e|]] info]|e] eqn:Ht;
    simpl; intros H; inversion H; subst.
  exists m, segments, info. repeat split. exact Ht.
Qed.

Lemma Forall2_trimmed (texts : list string) :
  Forall2 PyStr.trimmed_of texts (map PyStr.strip texts).
Proof.
  induction texts; constructor; [apply PyStrFacts.strip_trimmed | assumption].
Qed.

(** C1. For every run of [transcribe] in which the primary backend
    succeeds (the body of the outer [try] returns), [transcribe] returns
    that result, with [success] true; its [text] is the texts of the
    segments the backend yielded, each trimmed of leading and trailing
    whitespace, joined in that order with one space; its [duration] is
    present and is the duration of the backend's metadata. *)
Theorem primary_success_text_and_duration
    (w : world) (audio_path language : string)
    (tr : list event) (result : dict) :
  primary w audio_path language = (tr, Normal result) ->
  exists model segments info trimmed,
    WhisperModel w (environ_get w "WHISPER_MODEL" "base") "cpu" "int8"
      = Normal model
    /\ fw_transcribe model audio_path (language_hint language) 5 false true
       = Normal (mkStream segments None, info)
    /\ transcribe w audio_path language = (tr, Normal result)
    /\ Forall2 PyStr.trimmed_of (map text segments) trimmed
    /\ dict_get result "success" = Some (PyBool true)
    /\ dict_get result "text" = Some (PyStr (PyStr.join " " trimmed))
    /\ dict_get result "duration" = Some (PyFloat (info_duration info)).
Proof.
  intros Hp.
  destruct (primary_returns_inv _ _ _ _ _ Hp)
    as (m & segments & info & Hi & Hm & Ht & Htr & Hres).
  exists m, segments, info, (map PyStr.strip (map text segments)).
  split; [exact Hm|]. split; [exact Ht|].
  split; [rewrite transcribe_run, Hp; reflexivity|].
  split; [apply Forall2_trimmed|].
  subst result. rewrite map_map. repeat split.
Qed.

(** The scenario, as a run of [transcribe]. *)
#[warnings="-inexact-float"]
Lemma primary_success_text_and_duration_witness :
  exists model segments info trimmed,
    WhisperModel Scenario.speech
      (environ_get Scenario.speech "WHISPER_MODEL" "base") "cpu" "int8"
      = Normal model
    /\ fw_transcribe model "speech.wav" (language_hint "en") 5 false true
       = Normal (mkStream segments None, info)
    /\ transcribe Scenario.speech "speech.wav" "en"
       = ([EvImportFasterWhisper; EvImportTorch;
           EvWhisperModel "base" "cpu" "int8";
           EvFwTranscribe "speech.wav" (Some "en") 5 false true],
          Normal [("success", PyBool true); ("text", PyStr "Hello world.");
                  ("language", PyStr "en"); ("duration", PyFloat 3.2%float)])
    /\ Forall2 PyStr.trimmed_of (map text segments) trimmed
    /\ dict_get [("success", PyBool true); ("text", PyStr "Hello world.");
                 ("language", PyStr "en"); ("duration", PyFloat 3.2%float)]
                "success" = Some (PyBool true)
    /\ dict_get [("success", PyBool true); ("text", PyStr "Hello world.");
                 ("language", PyStr "en"); ("duration", PyFloat 3.2%float)]
                "text" = Some (PyStr (PyStr.join " " trimmed))
    /\ dict_get [("success", PyBool true); ("text", PyStr "Hello world.");
                 ("language", PyStr "en"); ("duration", PyFloat 3.2%float)]
                "duration" = Some (PyFloat (info_duration info)).
Proof.
  apply (primary_success_text_and_duration Scenario.speech "speech.wav" "en").
  vm_compute. reflexivity.
Defined.

(** C10. When the primary backend succeeds and yields no segment,
    [transcribe] returns [success] true with the empty string as [text]:
    the value the [text] field has in every failure result. *)
Theorem empty_transcript_is_success
    (w : world) (audio_path language : string) (model : fw_model)
    (info : TranscriptionInfo) :
  import_faster_whisper w = None ->
  WhisperModel w (environ_get w "WHISPER_MODEL" "base") "cpu" "int8"
    = Normal model ->
  fw_transcribe model audio_path (language_hint language) 5 false true
    = Normal (mkStream [] None, info) ->
  exists tr result,
    transcribe w audio_path language = (tr, Normal result)
    /\ dict_get result "success" = Some (PyBool true)
    /\ dict_get result "text" = Some (PyStr "")
    /\ forall message,
         dict_get result "text" = dict_get (failure_result message) "text".
Proof.
  intros Hi Hm Ht.
  exists (upto_inference w audio_path language), (primary_result language [] info).
  split; [|repeat split].
  rewrite transcribe_run.
  now rewrite (primary_succeeds w audio_path language model [] info Hi Hm Ht).
Qed.

Lemma empty_transcript_is_success_witness :
  exists tr result,
    transcribe Scenario.silence "silence.wav" "" = (tr, Normal result)
    /\ dict_get result "success" = Some (PyBool true)
    /\ dict_get result "text" = Some (PyStr "")
    /\ forall message,
         dict_get result "text" = dict_get (failure_result message) "text".
Proof.
  apply (empty_transcript_is_success Scenario.silence "silence.wav" ""
           Scenario.silent_model (mkInfo None 1.5%float));
    reflexivity.
Defined.

(** ** The language hint and the reported language *)

Lemma language_hint_empty : language_hint "" = None.
Proof. reflexivity. Qed.

Lemma language_hint_nonempty (language : string) :
  language <> "" -> language_hint language = Some language.
Proof. destruct language; [congruence | reflexivity]. Qed.

Lemma In_upto_inference (w : world) (audio_path language : string) :
  In (EvFwTranscribe audio_path (language_hint language) 5 false true)
     (upto_inference w audio_path language).
Proof. unfold upto_inference. apply in_or_app. right. now left. Qed.

(** C6. In every run in which the primary library imports and its model
    is constructed, [model.transcribe] is called with the requested
    language as the hint, or with [None] when the requested language is
    the empty string, and no call of it in the run carries another hint;
    when the primary backend succeeds, the [language] of the result is the
    language the backend detected, or the requested one when it detected
    none (or an empty one). *)
Theorem primary_language_hint_and_result
    (w : world) (audio_path language : string) (model : fw_model) :
  import_faster_whisper w = None ->
  WhisperModel w (environ_get w "WHISPER_MODEL" "base") "cpu" "int8"
    = Normal model ->
  let hint := if String.eqb language "" then None else Some language in
  In (EvFwTranscribe audio_path hint 5 false true)
     (fst (transcribe w audio_path language))
  /\ (forall path h beam wt vad,
        In (EvFwTranscribe path h beam wt vad)
           (fst (transcribe w audio_path language)) -> h = hint)
  /\ (forall segments info,
        fw_transcribe model audio_path hint 5 false true
          = Normal (mkStream segments None, info) ->
        exists tr result,
          transcribe w audio_path language = (tr, Normal result)
          /\ dict_get result "success" = Some (PyBool true)
          /\ (forall detected,
                info_language info = Some detected -> detected <> "" ->
                dict_get result "language" = Some (PyStr detected))
          /\ (info_language info = None \/ info_language info = Some "" ->
              dict_get result "language" = Some (PyStr language))).
Proof.
  intros Hi Hm hint.
  assert (hint = language_hint language) as Hh
      by (subst hint; destruct language; reflexivity).
  rewrite Hh. clear Hh hint.
  split; [|split].
  - rewrite transcribe_run, primary_run, Hi, Hm.
    pose proof (In_upto_inference w audio_path language) as Hin.
    destruct (fw_transcribe model _ _ _ _ _) as [[[segments [e|]] info]|e];
      cbn [fst snd failure]; try exact Hin;
      destruct (exn_class e); cbn [fst snd]; try exact Hin;
      apply in_or_app; now left.
  - intros path h beam wt vad Hin.
    pose proof (transcribe_calls w audio_path language) as Hall.
    rewrite Forall_forall in Hall. apply Hall in Hin. simpl in Hin. tauto.
  - intros segments info Ht.
    exists (upto_inference w audio_path language),
           (primary_result language segments info).
    split; [|split; [reflexivity|split]].
    + rewrite transcribe_run.
      now rewrite (primary_succeeds w audio_path language model segments info
                     Hi Hm Ht).
    + intros detected Hd Hne. simpl. rewrite Hd.
      destruct detected; [congruence | reflexivity].
    + intros [Hd|Hd]; simpl; rewrite Hd; reflexivity.
Qed.

Lemma primary_language_hint_and_result_witness :
  In (EvFwTranscribe "silence.wav" None 5 false true)
     (fst (transcribe Scenario.silence "silence.wav" ""))
  /\ (forall path h beam wt vad,
        In (EvFwTranscribe path h beam wt vad)
           (fst (transcribe Scenario.silence "silence.wav" "")) -> h = None)
  /\ (forall segments info,
        fw_transcribe Scenario.silent_model "silence.wav" None 5 false true
          = Normal (mkStream segments None, info) ->
        exists tr result,
          transcribe Scenario.silence "silence.wav" "" = (tr, Normal result)
          /\ dict_get result "success" = Some (PyBool true)
          /\ (forall detected,
                info_language info = Some detected -> detected <> "" ->
                dict_get result "language" = Some (PyStr detected))
          /\ (info_language info = None \/ info_language info = Some "" ->
              dict_get result "language" = Some (PyStr ""))).
Proof.
  apply (primary_language_hint_and_result Scenario.silence "silence.wav" ""
           Scenario.silent_model); reflexivity.
Defined.

(** ** The results [transcribe] can return *)

Lemma fallback_handled_cases (e : exn) (result : dict) :
  fallback_handled e = Normal result ->
  result = failure_result ("Whisper not available: " ++ exn_str e).
Proof.
  unfold fallback_handled. destruct (isinstance_Exception e); congruence.
Qed.

Lemma fallback_result_cases (w : world) (audio_path language : string)
    (result : dict) :
  snd (fallback w audio_path language) = Normal result ->
  (exists r, result = secondary_result language r)
  \/ (exists message, result = failure_result message).
Proof.
  rewrite fallback_run.
  destruct (import_whisper w) as [e|]; simpl.
  { intros H. right. eexists. exact (fallback_handled_cases _ _ H). }
  destruct (load_model w "base") as [m|e]; simpl.
  - destruct (w_transcribe m audio_path language) as [r|e]; intros H.
    + left. exists r. congruence.
    + right. eexists. exact (fallback_handled_cases _ _ H).
  - intros H. right. eexists. exact (fallback_handled_cases _ _ H).
Qed.

Lemma primary_result_cases (w : world) (audio_path language : string)
    (result : dict) :
  snd (primary w audio_path language) = Normal result ->
  exists segments info, result = primary_result language segments info.
Proof.
  destruct (primary w audio_path language) as [tr out] eqn:Hp. simpl.
  intros ->. apply primary_returns_inv in Hp.
  destruct Hp as (m & segments & info & _ & _ & _ & _ & ->). eauto.
Qed.

Lemma transcribe_result_cases (w : world) (audio_path language : string)
    (result : dict) :
  snd (transcribe w audio_path language) = Normal result ->
  (exists segments info, result = primary_result language segments info)
  \/ (exists r, result = secondary_result language r)
  \/ (exists message, result = failure_result message).
Proof.
  rewrite transcribe_run.
  pose proof (primary_result_cases w audio_path language) as Hp.
  destruct (primary w audio_path language) as [tr [d|e]]; simpl in *.
  - intros H. left. apply Hp. exact H.
  - destruct (exn_class e); simpl; intros H.
    + right. now apply (fallback_result_cases w audio_path).
    + right. right. exists (exn_str e). congruence.
    + discriminate.
Qed.

(** C9. Every result [transcribe] returns with [success] false has
    exactly the keys [success], [error] and [text], in this order: no
    [language] and no [duration]. *)
Theorem failure_result_keys
    (w : world) (audio_path language : string)
    (tr : list event) (result : dict) :
  transcribe w audio_path language = (tr, Normal result) ->
  dict_get result "success" = Some (PyBool false) ->
  keys result = ["success"; "error"; "text"]
  /\ dict_get result "language" = None
  /\ dict_get result "duration" = None.
Proof.
  intros Hrun Hfail.
  destruct (transcribe_result_cases w audio_path language result)
    as [(segments & info & ->) | [(r & ->) | (message & ->)]].
  - now rewrite Hrun.
  - discriminate Hfail.
  - discriminate Hfail.
  - repeat split.
Qed.

Lemma failure_result_keys_witness :
  keys (failure_result "Invalid model size 'base'") = ["success"; "error"; "text"]
  /\ dict_get (failure_result "Invalid model size 'base'") "language" = None
  /\ dict_get (failure_result "Invalid model size 'base'") "duration" = None.
Proof.
  apply (failure_result_keys Scenario.broken_model "speech.wav" "en"
           [EvImportFasterWhisper; EvImportTorch;
            EvWhisperModel "base" "cpu" "int8"]);
    reflexivity.
Defined.

(** ** Failure of the primary backend *)

Lemma primary_raises (w : world) (audio_path language : string) (e : exn) :
  import_faster_whisper w = None ->
  primary_error w audio_path language = Some e ->
  exists tr,
    primary w audio_path language = (tr, Raised e)
    /\ existsb is_secondary tr = false.
Proof.
  intros Hi He. rewrite primary_run, Hi. unfold primary_error in He.
  destruct (upto_inference_primary_only w audio_path language) as [H1 H2].
  destruct (WhisperModel w _ _ _) as [m|e'].
  - exists (upto_inference w audio_path language). split; [|exact H1].
    destruct (fw_transcribe m _ _ _ _ _) as [[segments info]|e''].
    + now rewrite He.
    + congruence.
  - exists (upto_model w). split; [congruence | exact H2].
Qed.

(** C2, as the code has it.  In every run in which the primary library
    imports and the primary backend then raises, during the construction
    of the model or during inference, an exception that is an [Exception]
    but not an [ImportError], [transcribe] returns [success] false, the
    message of the exception as [error] and the empty string as [text],
    and the run never touches the secondary backend. *)
Theorem primary_failure_no_fallback
    (w : world) (audio_path language : string) (e : exn) :
  import_faster_whisper w = None ->
  primary_error w audio_path language = Some e ->
  exn_class e = Exception ->
  exists tr,
    transcribe w audio_path language
      = (tr, Normal [ ("success", PyBool false);
                      ("error", PyStr (exn_str e));
                      ("text", PyStr "") ])
    /\ existsb is_secondary tr = false.
Proof.
  intros Hi He Hc.
  destruct (primary_raises w audio_path language e Hi He) as [tr [Hp Hs]].
  exists tr. split; [|exact Hs].
  now rewrite transcribe_run, Hp, Hc.
Qed.

Lemma primary_failure_no_fallback_witness :
  exists tr,
    transcribe Scenario.broken_model "speech.wav" "en"
      = (tr, Normal [ ("success", PyBool false);
                      ("error", PyStr "Invalid model size 'base'");
                      ("text", PyStr "") ])
    /\ existsb is_secondary tr = false.
Proof.
  apply (primary_failure_no_fallback Scenario.broken_model "speech.wav" "en"
           (mkExn Exception "Invalid model size 'base'"));
    reflexivity.
Defined.

(** C2 fails as stated.  The primary library imports; constructing the
    model raises an [ImportError]; the clause [except ImportError] of the
    outer [try] catches it, the secondary backend runs and the result is a
    success. *)
Lemma late_import_error_falls_back :
  import_faster_whisper Scenario.late_import_error = None
  /\ primary_error Scenario.late_import_error "speech.wav" "en"
     = Some (mkExn ImportError "No module named 'ctranslate2'")
  /\ transcribe Scenario.late_import_error "speech.wav" "en"
     = ([EvImportFasterWhisper; EvImportTorch;
         EvWhisperModel "base" "cpu" "int8";
         EvImportWhisper; EvLoadModel "base";
         EvWhisperTranscribe "speech.wav" "en"],
        Normal [ ("success", PyBool true);
                 ("text", PyStr "hi there");
                 ("language", PyStr "en") ])
  /\ existsb is_secondary
       (fst (transcribe Scenario.late_import_error "speech.wav" "en")) = true.
Proof. repeat split. Qed.

(** ** Absence of the primary library *)

Lemma In_fallback_transcribe (w : world) (audio_path language : string)
    (model : whisper_model) :
  import_whisper w = None ->
  load_model w "base" = Normal model ->
  In (EvWhisperTranscribe audio_path language)
     (fst (fallback w audio_path language)).
Proof.
  intros Hi Hm. rewrite fallback_run, Hi, Hm. simpl. tauto.
Qed.

Lemma fallback_raises (w : world) (audio_path language : string) (e : exn) :
  secondary_error w audio_path language = Some e ->
  snd (fallback w audio_path language) = fallback_handled e.
Proof.
  unfold secondary_error. rewrite fallback_run.
  destruct (import_whisper w) as [e'|]; [simpl; congruence|].
  destruct (load_model w "base") as [m|e']; [|simpl; congruence].
  destruct (w_transcribe m audio_path language) as [r|e']; simpl; congruence.
Qed.

Lemma fallback_starts_with_import (w : world) (audio_path language : string) :
  exists rest, fst (fallback w audio_path language) = EvImportWhisper :: rest.
Proof.
  rewrite fallback_run.
  destruct (import_whisper w); [|destruct (load_model w "base")];
    simpl; eauto.
Qed.

(** C3 fails as stated.  An import can fail otherwise than with an
    [ImportError]: here a shared library the primary library links
    against cannot be loaded.  The clause [except ImportError] does not
    take that exception; the clause [except Exception] of the outer [try]
    does, and the secondary backend is not attempted. *)
Lemma failed_import_without_fallback :
  import_faster_whisper Scenario2.broken_import
    = Some (mkExn Exception "libcudnn.so.8: cannot open shared object file")
  /\ transcribe Scenario2.broken_import "speech.wav" "en"
     = ([EvImportFasterWhisper],
        Normal [ ("success", PyBool false);
                 ("error",
                  PyStr "libcudnn.so.8: cannot open shared object file");
                 ("text", PyStr "") ])
  /\ existsb is_secondary
       (fst (transcribe Scenario2.broken_import "speech.wav" "en")) = false.
Proof. repeat split. Qed.

(** C3, as the code has it.  In every run in which the import of the
    primary library raises an [ImportError], the secondary backend is
    tried next: its library is imported, every call of its [transcribe]
    carries the audio path and the requested language unchanged, and that
    call is made as soon as the import and [load_model("base")] succeed.
    If the secondary backend raises an error (an [Exception]) at any of
    these steps, [transcribe] returns [success] false, the empty string as
    [text], and as [error] the text "Whisper not available: " followed by
    the message of that error. *)
Theorem fallback_on_missing_primary
    (w : world) (audio_path language : string) (missing : exn) :
  import_faster_whisper w = Some missing ->
  exn_class missing = ImportError ->
  (exists rest,
     fst (transcribe w audio_path language)
       = EvImportFasterWhisper :: EvImportWhisper :: rest)
  /\ (forall path lang,
        In (EvWhisperTranscribe path lang)
           (fst (transcribe w audio_path language)) ->
        path = audio_path /\ lang = language)
  /\ (forall model,
        import_whisper w = None -> load_model w "base" = Normal model ->
        In (EvWhisperTranscribe audio_path language)
           (fst (transcribe w audio_path language)))
  /\ (forall e,
        secondary_error w audio_path language = Some e ->
        isinstance_Exception e = true ->
        snd (transcribe w audio_path language)
          = Normal [ ("success", PyBool false);
                     ("error", PyStr ("Whisper not available: " ++ exn_str e));
                     ("text", PyStr "") ]).
Proof.
  intros Hi Hc.
  assert (transcribe w audio_path language
          = (EvImportFasterWhisper :: fst (fallback w audio_path language),
             snd (fallback w audio_path language))) as Hrun.
  { rewrite transcribe_run, (primary_import_fails w audio_path language _ Hi).
    now rewrite Hc. }
  split; [|split; [|split]].
  - rewrite Hrun. simpl.
    destruct (fallback_starts_with_import w audio_path language) as [rest ->].
    eauto.
  - intros path lang Hin.
    pose proof (transcribe_calls w audio_path language) as Hall.
    rewrite Forall_forall in Hall. exact (Hall _ Hin).
  - intros model Hiw Hm. rewrite Hrun. simpl. right.
    exact (In_fallback_transcribe w audio_path language model Hiw Hm).
  - intros e He Hexc. rewrite Hrun. simpl.
    rewrite (fallback_raises w audio_path language e He).
    unfold fallback_handled. now rewrite Hexc.
Qed.

Lemma fallback_on_missing_primary_witness :
  (exists rest,
     fst (transcribe Scenario.no_backend "speech.wav" "de")
       = EvImportFasterWhisper :: EvImportWhisper :: rest)
  /\ (forall path lang,
        In (EvWhisperTranscribe path lang)
           (fst (transcribe Scenario.no_backend "speech.wav" "de")) ->
        path = "speech.wav" /\ lang = "de")
  /\ (forall model,
        import_whisper Scenario.no_backend = None ->
        load_model Scenario.no_backend "base" = Normal model ->
        In (EvWhisperTranscribe "speech.wav" "de")
           (fst (transcribe Scenario.no_backend "speech.wav" "de")))
  /\ (forall e,
        secondary_error Scenario.no_backend "speech.wav" "de" = Some e ->
        isinstance_Exception e = true ->
        snd (transcribe Scenario.no_backend "speech.wav" "de")
          = Normal [ ("success", PyBool false);
                     ("error", PyStr ("Whisper not available: " ++ exn_str e));
                     ("text", PyStr "") ]).
Proof.
  apply (fallback_on_missing_primary Scenario.no_backend "speech.wav" "de"
           (mkExn ImportError "No module named 'faster_whisper'"));
    reflexivity.
Defined.

(** The fallback, run in the two worlds without the primary library. *)
Example no_backend_run :
  transcribe Scenario.no_backend "speech.wav" "de"
  = ([EvImportFasterWhisper; EvImportWhisper],
     Normal [ ("success", PyBool false);
              ("error", PyStr "Whisper not available: No module named 'whisper'");
              ("text", PyStr "") ]).
Proof. reflexivity. Qed.

Example only_whisper_run :
  transcribe Scenario.only_whisper "speech.wav" "de"
  = ([EvImportFasterWhisper; EvImportWhisper; EvLoadModel "base";
      EvWhisperTranscribe "speech.wav" "de"],
     Normal [ ("success", PyBool true); ("text", PyStr "hi there");
              ("language", PyStr "de") ]).
Proof. reflexivity. Qed.

(** ** The accelerator probe *)

Lemma without_probe_upto_model (w : world) :
  without_probe (upto_model w)
  = [EvImportFasterWhisper;
     EvWhisperModel (environ_get w "WHISPER_MODEL" "base") "cpu" "int8"].
Proof.
  unfold upto_model, probe_trace. destruct (import_torch w); reflexivity.
Qed.

Lemma without_probe_app (tr tr' : list event) :
  without_probe (tr ++ tr') = (without_probe tr ++ without_probe tr')%list.
Proof. apply filter_app. Qed.

Lemma primary_probe_irrelevant (w : world) (audio_path language : string)
    (torch : option exn) (mps : outcome bool) :
  snd (primary (with_probe w torch mps) audio_path language)
    = snd (primary w audio_path language)
  /\ without_probe (fst (primary (with_probe w torch mps) audio_path language))
     = without_probe (fst (primary w audio_path language)).
Proof.
  rewrite !primary_run.
  change (import_faster_whisper (with_probe w torch mps))
    with (import_faster_whisper w).
  change (environ_get (with_probe w torch mps)) with (environ_get w).
  change (WhisperModel (with_probe w torch mps)) with (WhisperModel w).
  destruct (import_faster_whisper w); [split; reflexivity|].
  destruct (WhisperModel w _ _ _); cbn [fst snd].
  - split; [reflexivity|]. unfold upto_inference.
    rewrite !without_probe_app, !without_probe_upto_model. reflexivity.
  - split; [reflexivity|]. now rewrite !without_probe_upto_model.
Qed.

Lemma transcribe_probe_irrelevant (w : world) (audio_path language : string)
    (torch : option exn) (mps : outcome bool) :
  snd (transcribe (with_probe w torch mps) audio_path language)
    = snd (transcribe w audio_path language)
  /\ without_probe (fst (transcribe (with_probe w torch mps) audio_path language))
     = without_probe (fst (transcribe w audio_path language)).
Proof.
  rewrite !transcribe_run.
  destruct (primary_probe_irrelevant w audio_path language torch mps)
    as [Hs Ht].
  change (fallback (with_probe w torch mps)) with (fallback w).
  destruct (primary (with_probe w torch mps) audio_path language)
    as [tr1 [d1|e1]], (primary w audio_path language) as [tr2 [d2|e2]];
    simpl in Hs, Ht; inversion Hs; subst; [split; [reflexivity | exact Ht]|].
  destruct (exn_class e2); cbn [fst snd]; split; try reflexivity; try exact Ht.
  rewrite !without_probe_app. now rewrite Ht.
Qed.

(** C8. Two runs of [transcribe] on the same inputs, in worlds that differ
    only in the outcome of the probe for Metal/MPS ([import torch] succeeds
    or raises, [is_available()] answers true or false or raises), end the
    same way: the value returned (or the exception left uncaught) is the
    same and so are the calls other than those of the probe.  Every
    primary model is constructed with device ["cpu"] and compute type
    ["int8"], and the probe itself never raises, whatever is raised
    inside it. *)
Theorem probe_outcome_irrelevant
    (w : world) (audio_path language : string)
    (torch torch' : option exn) (mps mps' : outcome bool) :
  snd (transcribe (with_probe w torch mps) audio_path language)
    = snd (transcribe (with_probe w torch' mps') audio_path language)
  /\ without_probe (fst (transcribe (with_probe w torch mps) audio_path language))
     = without_probe (fst (transcribe (with_probe w torch' mps') audio_path language))
  /\ (forall model_size device compute_type,
        In (EvWhisperModel model_size device compute_type)
           (fst (transcribe (with_probe w torch mps) audio_path language)) ->
        device = "cpu" /\ compute_type = "int8")
  /\ snd (probe_mps (with_probe w torch mps) "cpu" "int8")
     = Normal ("cpu", "int8").
Proof.
  destruct (transcribe_probe_irrelevant w audio_path language torch mps)
    as [Hs Ht].
  destruct (transcribe_probe_irrelevant w audio_path language torch' mps')
    as [Hs' Ht'].
  split; [congruence|]. split; [congruence|]. split.
  - intros model_size device compute_type Hin.
    pose proof (transcribe_calls (with_probe w torch mps) audio_path language)
      as Hall.
    rewrite Forall_forall in Hall. apply Hall in Hin. simpl in Hin. tauto.
  - now rewrite probe_mps_run.
Qed.

(** The probe raising an exception outside [Exception] changes nothing. *)
Example probe_interrupted :
  transcribe (with_probe Scenario.speech None
                (Raised (mkExn BaseException "KeyboardInterrupt")))
             "speech.wav" "en"
  = ([EvImportFasterWhisper; EvImportTorch; EvMpsIsAvailable;
      EvWhisperModel "base" "cpu" "int8";
      EvFwTranscribe "speech.wav" (Some "en") 5 false true],
     snd (transcribe Scenario.speech "speech.wav" "en")).
Proof. reflexivity. Qed.

(** ** The entry point *)

(** [main] by cases on the shape of [sys.argv]. *)
Lemma main_run (w : world) :
  main w =
  match argv w with
  | [] | [_] => ([EvPrint usage_error], Exit 1)
  | _ :: audio_file :: rest =>
      let language := match rest with [] => "en" | l :: _ => l end in
      if path_exists w audio_file then
        match transcribe w audio_file language with
        | (tr, Normal result) =>
            ((EvPathExists audio_file :: tr ++ [EvPrint result])%list, Exit 0)
        | (tr, Raised e) => ((EvPathExists audio_file :: tr)%list, Uncaught e)
        end
      else
        ([EvPathExists audio_file; EvPrint (file_not_found audio_file)], Exit 1)
  end.
Proof.
  unfold main. destruct (argv w) as [|prog [|audio_file [|l rest]]];
    try reflexivity; simpl; destruct (path_exists w audio_file); reflexivity.
Qed.

Lemma main_calls_transcribe (w : world) (prog audio_file : string)
    (rest : list string) (tr : list event) (out : outcome dict) :
  argv w = prog :: audio_file :: rest ->
  path_exists w audio_file = true ->
  transcribe w audio_file (match rest with [] => "en" | l :: _ => l end)
    = (tr, out) ->
  main w =
  match out with
  | Normal result =>
      ((EvPathExists audio_file :: tr ++ [EvPrint result])%list, Exit 0)
  | Raised e => ((EvPathExists audio_file :: tr)%list, Uncaught e)
  end.
Proof.
  intros Ha Hp Ht. rewrite main_run, Ha. cbn zeta. now rewrite Hp, Ht.
Qed.

Lemma stdout_of_run (w : world) (audio_path language : string) (d : dict) :
  stdout (fst (transcribe w audio_path language) ++ [EvPrint d]) = [d].
Proof. now rewrite stdout_app, transcribe_silent. Qed.

(** C4. In every invocation with an audio path that does not exist, the
    process checks the path, prints the one object with [success] false
    and [error] "File not found: " followed by the path as given, and
    exits with status 1; it does nothing else: [transcribe] is not called
    and no backend is touched. *)
Theorem missing_file_preflight
    (w : world) (prog audio_file : string) (rest : list string) :
  argv w = prog :: audio_file :: rest ->
  path_exists w audio_file = false ->
  main w
    = ([EvPathExists audio_file;
        EvPrint [ ("success", PyBool false);
                  ("error", PyStr ("File not found: " ++ audio_file)) ]],
       Exit 1)
  /\ stdout (fst (main w))
     = [[ ("success", PyBool false);
          ("error", PyStr ("File not found: " ++ audio_file)) ]]
  /\ existsb is_backend (fst (main w)) = false.
Proof.
  intros Ha Hp.
  assert (main w = ([EvPathExists audio_file;
                     EvPrint (file_not_found audio_file)], Exit 1)) as Hm.
  { rewrite main_run, Ha. cbn zeta. now rewrite Hp. }
  rewrite Hm. repeat split.
Qed.

Lemma missing_file_preflight_witness :
  main Scenario.missing
    = ([EvPathExists "missing.wav";
        EvPrint [ ("success", PyBool false);
                  ("error", PyStr "File not found: missing.wav") ]],
       Exit 1)
  /\ stdout (fst (main Scenario.missing))
     = [[ ("success", PyBool false);
          ("error", PyStr "File not found: missing.wav") ]]
  /\ existsb is_backend (fst (main Scenario.missing)) = false.
Proof.
  apply (missing_file_preflight Scenario.missing "transcribe.py" "missing.wav" []);
    reflexivity.
Defined.

(** C5. At the process boundary: with no argument after the program name
    the process prints the usage error and exits with status 1; with one
    argument [transcribe] is called on it with the language ["en"]; with
    two or more it is called with the second argument as the language,
    whatever follows; and whenever [transcribe] is reached and returns a
    result, that result is the one object printed and the exit status is
    0, whether its [success] is true or false. *)
Theorem entry_point_contract (w : world) :
  ((length (argv w) < 2)%nat ->
   main w
     = ([EvPrint [ ("success", PyBool false);
                   ("error",
                    PyStr "Usage: transcribe.py <audio_file> [language]") ]],
        Exit 1))
  /\ (forall prog audio_file,
        argv w = [prog; audio_file] -> path_exists w audio_file = true ->
        main w = report audio_file (transcribe w audio_file "en"))
  /\ (forall prog audio_file language rest,
        argv w = prog :: audio_file :: language :: rest ->
        path_exists w audio_file = true ->
        main w = report audio_file (transcribe w audio_file language))
  /\ (forall prog audio_file rest tr result,
        argv w = prog :: audio_file :: rest ->
        path_exists w audio_file = true ->
        transcribe w audio_file (effective_language w) = (tr, Normal result) ->
        main w = ((EvPathExists audio_file :: tr ++ [EvPrint result])%list,
                  Exit 0)
        /\ stdout (fst (main w)) = [result])
  /\ (forall prog audio_file language rest rest',
        main (with_argv w (prog :: audio_file :: language :: rest))
        = main (with_argv w (prog :: audio_file :: language :: rest'))).
Proof.
  split; [|split; [|split; [|split]]].
  - intros Hlen. rewrite main_run.
    destruct (argv w) as [|prog [|audio_file rest]]; try reflexivity.
    simpl in Hlen. lia.
  - intros prog audio_file Ha Hp. rewrite main_run, Ha. cbn zeta.
    now rewrite Hp.
  - intros prog audio_file language rest Ha Hp. rewrite main_run, Ha.
    cbn zeta. now rewrite Hp.
  - intros prog audio_file rest tr result Ha Hp Ht.
    assert (effective_language w = match rest with [] => "en" | l :: _ => l end)
      as Hl by (unfold effective_language; rewrite Ha; now destruct rest).
    rewrite Hl in Ht.
    rewrite (main_calls_transcribe w prog audio_file rest tr _ Ha Hp Ht).
    split; [reflexivity|]. cbn [fst stdout].
    replace tr with (fst (transcribe w audio_file
                            (match rest with [] => "en" | l :: _ => l end)))
      by now rewrite Ht.
    apply stdout_of_run.
  - intros prog audio_file language rest rest'. now rewrite !main_run.
Qed.

#[warnings="-inexact-float"]
Lemma entry_point_contract_witness :
  main Scenario.no_argument
    = ([EvPrint [ ("success", PyBool false);
                  ("error",
                   PyStr "Usage: transcribe.py <audio_file> [language]") ]],
       Exit 1)
  /\ main Scenario.speech
     = report "speech.wav" (transcribe Scenario.speech "speech.wav" "en")
  /\ main Scenario.extra_arguments
     = report "speech.wav" (transcribe Scenario.extra_arguments "speech.wav" "fr")
  /\ (main Scenario.broken_model
      = ([EvPathExists "speech.wav"; EvImportFasterWhisper; EvImportTorch;
          EvWhisperModel "base" "cpu" "int8";
          EvPrint (failure_result "Invalid model size 'base'")],
         Exit 0)
      /\ stdout (fst (main Scenario.broken_model))
         = [failure_result "Invalid model size 'base'"]).
Proof.
  split; [|split; [|split]].
  - apply (proj1 (entry_point_contract Scenario.no_argument)).
    simpl. lia.
  - apply (proj1 (proj2 (entry_point_contract Scenario.speech))
             "transcribe.py" "speech.wav"); reflexivity.
  - apply (proj1 (proj2 (proj2 (entry_point_contract Scenario.extra_arguments)))
             "transcribe.py" "speech.wav" "fr" ["--verbose"; "x"]); reflexivity.
  - apply (proj1 (proj2 (proj2 (proj2
             (entry_point_contract Scenario.broken_model))))
             "transcribe.py" "speech.wav" []
             [EvImportFasterWhisper; EvImportTorch;
              EvWhisperModel "base" "cpu" "int8"]
             (failure_result "Invalid model size 'base'")); reflexivity.
Defined.

(** The run with extra arguments: the third and later ones play no part. *)
#[warnings="-inexact-float"]
Example extra_arguments_run :
  main Scenario.extra_arguments
  = ([EvPathExists "speech.wav"; EvImportFasterWhisper; EvImportTorch;
      EvWhisperModel "base" "cpu" "int8";
      EvFwTranscribe "speech.wav" (Some "fr") 5 false true;
      EvPrint [("success", PyBool true); ("text", PyStr "Hello world.");
               ("language", PyStr "en"); ("duration", PyFloat 3.2%float)]],
     Exit 0).
Proof. vm_compute. reflexivity. Qed.

(** ** The objects printed *)

Lemma conforms_primary_result (language : string) (segments : list Segment)
    (info : TranscriptionInfo) :
  conforms (primary_result language segments info) = true.
Proof. reflexivity. Qed.

Lemma conforms_secondary_result (language : string) (r : whisper_result) :
  conforms (secondary_result language r) = true.
Proof. reflexivity. Qed.

Lemma conforms_failure_result (message : string) :
  conforms (failure_result message) = true.
Proof. reflexivity. Qed.

(** What [transcribe] returns has the shape of a TranscriptionResult, with
    a [text] that is empty when [success] is false. *)
Lemma transcribe_result_conforms (w : world) (audio_path language : string)
    (result : dict) :
  snd (transcribe w audio_path language) = Normal result ->
  conforms result = true
  /\ (exists t, dict_get result "text" = Some (PyStr t))
  /\ (dict_get result "success" = Some (PyBool false) ->
      dict_get result "text" = Some (PyStr "")).
Proof.
  intros H.
  destruct (transcribe_result_cases w audio_path language result H)
    as [(segments & info & ->) | [(r & ->) | (message & ->)]].
  - split; [reflexivity|]. split; [simpl; eauto | discriminate].
  - split; [reflexivity|]. split; [simpl; eauto | discriminate].
  - split; [reflexivity|]. split; [simpl; eauto | reflexivity].
Qed.

(** An exception that leaves [transcribe] is outside [Exception]. *)
Lemma escaped_exception_class (w : world) (audio_path language : string)
    (e : exn) :
  snd (transcribe w audio_path language) = Raised e ->
  exn_class e = BaseException.
Proof.
  rewrite transcribe_run.
  destruct (primary w audio_path language) as [tr [d|e1]]; cbn [snd].
  - discriminate.
  - destruct (exn_class e1) eqn:Hc; cbn [snd]; intros H.
    + rewrite fallback_run in H. unfold fallback_handled in H.
      destruct (import_whisper w) as [e2|];
        [|destruct (load_model w "base") as [m|e2];
          [destruct (w_transcribe m audio_path language) as [r|e2]|]];
        cbn [snd] in H; try discriminate;
        unfold isinstance_Exception in H;
        destruct (exn_class e2) eqn:Hc2; inversion H; subst; exact Hc2.
    + discriminate.
    + inversion H; subst. exact Hc.
Qed.

(** C7 fails as stated, in two ways.  Run without an argument, the process
    prints one object, the usage error; it has no [text] field, so it does
    not have the shape of a TranscriptionResult, and the object printed
    for a missing file has none either.  And when a backend raises an
    exception outside [Exception], here an interrupt from the keyboard
    during inference, nothing catches it and the process prints nothing:
    standard output has no line at all. *)
Lemma stdout_without_text_or_empty :
  main Scenario.no_argument = ([EvPrint usage_error], Exit 1)
  /\ stdout (fst (main Scenario.no_argument))
     = [[ ("success", PyBool false);
          ("error", PyStr "Usage: transcribe.py <audio_file> [language]") ]]
  /\ dict_get usage_error "text" = None
  /\ conforms usage_error = false
  /\ stdout (fst (main Scenario.missing)) = [file_not_found "missing.wav"]
  /\ dict_get (file_not_found "missing.wav") "text" = None
  /\ main Scenario2.interrupted
     = ([EvPathExists "speech.wav"; EvImportFasterWhisper; EvImportTorch;
         EvWhisperModel "base" "cpu" "int8";
         EvFwTranscribe "speech.wav" (Some "en") 5 false true],
        Uncaught (mkExn BaseException "KeyboardInterrupt"))
  /\ stdout (fst (main Scenario2.interrupted)) = [].
Proof. repeat split. Qed.

(** C7, as the code has it.  Every invocation the script ends itself, by
    [sys.exit(1)] after a usage error or a missing file or by reaching its
    last line after [transcribe] returned a success or a failure, prints
    exactly one object, with a boolean [success].  After a usage error or
    a missing file the object has the two keys [success] and [error] and no
    [text]; otherwise it is the result of [transcribe], which has the
    shape of a TranscriptionResult: [text] is present, and is the empty
    string when [success] is false.  The only other invocations are those
    in which an exception outside [Exception] leaves [transcribe]: they
    print nothing. *)
Theorem stdout_one_object (w : world) :
  match snd (main w) with
  | Exit status =>
      exists d,
        stdout (fst (main w)) = [d]
        /\ (exists ok, dict_get d "success" = Some (PyBool ok))
        /\ ((status = 1%Z
             /\ (d = usage_error \/ d = file_not_found (nth 1 (argv w) ""))
             /\ keys d = ["success"; "error"]
             /\ dict_get d "success" = Some (PyBool false)
             /\ dict_get d "text" = None)
            \/ (status = 0%Z
                /\ snd (transcribe w (nth 1 (argv w) "") (effective_language w))
                   = Normal d
                /\ conforms d = true
                /\ (exists t, dict_get d "text" = Some (PyStr t))
                /\ (dict_get d "success" = Some (PyBool false) ->
                    dict_get d "text" = Some (PyStr ""))))
  | Uncaught e =>
      stdout (fst (main w)) = [] /\ exn_class e = BaseException
  end.
Proof.
  rewrite main_run. unfold effective_language.
  destruct (argv w) as [|prog [|audio_file rest]].
  - exists usage_error. split; [reflexivity|]. split; [now exists false|].
    left. repeat split. now left.
  - exists usage_error. split; [reflexivity|]. split; [now exists false|].
    left. repeat split. now left.
  - cbn zeta. destruct (path_exists w audio_file).
    + assert ((if (2 <? length (prog :: audio_file :: rest))%nat
               then nth 2 (prog :: audio_file :: rest) "" else "en")
              = match rest with [] => "en" | l :: _ => l end) as ->
        by now destruct rest.
      cbn [nth].
      pose proof (transcribe_silent w audio_file
                    (match rest with [] => "en" | l :: _ => l end)) as Hs.
      pose proof (transcribe_result_conforms w audio_file
                    (match rest with [] => "en" | l :: _ => l end)) as Hc.
      pose proof (escaped_exception_class w audio_file
                    (match rest with [] => "en" | l :: _ => l end)) as He.
      destruct (transcribe w audio_file _) as [tr [result|e]]; cbn [fst snd] in *.
      * exists result. destruct (Hc result eq_refl) as (Hconf & Htext & Hempty).
        split; [cbn [stdout]; now rewrite stdout_app, Hs|].
        split.
        { unfold conforms in Hconf.
          destruct (dict_get result "success") as [[| ok | |]|];
            rewrite ?andb_false_r in Hconf; try discriminate; eauto. }
        right. repeat split; assumption.
      * split; [exact Hs | exact (He e eq_refl)].
    + exists (file_not_found audio_file). split; [reflexivity|].
      split; [now exists false|]. left. repeat split. now right.
Qed.

(** ** [strip] and [join] on examples *)

Example strip_hello : PyStr.strip " Hello " = "Hello".
Proof. reflexivity. Qed.

Example strip_inner_space_kept :
  PyStr.strip (String "010" (String "009" " x y  ")) = "x y".
Proof. reflexivity. Qed.

Example strip_blank : PyStr.strip "   " = "".
Proof. reflexivity. Qed.

Example join_two : PyStr.join " " ["Hello"; "world."] = "Hello world.".
Proof. reflexivity. Qed.

Example join_keeps_empty_parts : PyStr.join " " ["a"; ""; "b"] = "a  b".
Proof. reflexivity. Qed.

(** * Further properties of the script *)

(** ** The secondary backend, when it succeeds *)

(** X1. When the import of the primary library raises an [ImportError] and
    the secondary backend imports, loads its model and transcribes, the
    run is these four calls and [transcribe] returns a success with
    exactly the keys [success], [text] and [language] (no [duration]):
    [text] is the text of the secondary backend trimmed, [language] is the
    one it reports, whatever it is, and the requested one only when the
    key is missing. *)
Theorem fallback_success
    (w : world) (audio_path language : string) (missing : exn)
    (model : whisper_model) (r : whisper_result) :
  import_faster_whisper w = Some missing ->
  exn_class missing = ImportError ->
  import_whisper w = None ->
  load_model w "base" = Normal model ->
  w_transcribe model audio_path language = Normal r ->
  exists result trimmed,
    transcribe w audio_path language
      = ([EvImportFasterWhisper; EvImportWhisper; EvLoadModel "base";
          EvWhisperTranscribe audio_path language],
         Normal result)
    /\ keys result = ["success"; "text"; "language"]
    /\ dict_get result "success" = Some (PyBool true)
    /\ PyStr.trimmed_of (wr_text r) trimmed
    /\ dict_get result "text" = Some (PyStr trimmed)
    /\ (forall reported,
          wr_language r = Some reported ->
          dict_get result "language" = Some (PyStr reported))
    /\ (wr_language r = None ->
        dict_get result "language" = Some (PyStr language))
    /\ dict_get result "duration" = None.
Proof.
  intros Hi Hc Hiw Hm Ht.
  exists (secondary_result language r), (PyStr.strip (wr_text r)).
  split.
  - rewrite transcribe_run, (primary_import_fails w audio_path language _ Hi), Hc.
    rewrite fallback_run, Hiw, Hm, Ht. reflexivity.
  - split; [reflexivity|]. split; [reflexivity|].
    split; [apply PyStrFacts.strip_trimmed|]. split; [reflexivity|].
    split; [|split; [|reflexivity]].
    + intros reported Hr. simpl. now rewrite Hr.
    + intros Hr. simpl. now rewrite Hr.
Qed.

Lemma fallback_success_witness :
  exists result trimmed,
    transcribe Scenario2.terse "salut.wav" "fr"
      = ([EvImportFasterWhisper; EvImportWhisper; EvLoadModel "base";
          EvWhisperTranscribe "salut.wav" "fr"],
         Normal result)
    /\ keys result = ["success"; "text"; "language"]
    /\ dict_get result "success" = Some (PyBool true)
    /\ PyStr.trimmed_of "  bonjour " trimmed
    /\ dict_get result "text" = Some (PyStr trimmed)
    /\ (forall reported,
          None = Some reported ->
          dict_get result "language" = Some (PyStr reported))
    /\ (@None string = None ->
        dict_get result "language" = Some (PyStr "fr"))
    /\ dict_get result "duration" = None.
Proof.
  apply (fallback_success Scenario2.terse "salut.wav" "fr"
           (mkExn ImportError "No module named 'faster_whisper'")
           Scenario2.terse_whisper (mkWhisperResult "  bonjour " None));
    reflexivity.
Defined.

(** ** The environment *)

Lemma primary_environ (w : world) (audio_path language : string)
    (env env' : string -> option string) :
  env "WHISPER_MODEL" = env' "WHISPER_MODEL" ->
  primary (with_environ w env) audio_path language
  = primary (with_environ w env') audio_path language.
Proof.
  intros H. unfold primary, environ_get. cbn [environ with_environ].
  rewrite H. reflexivity.
Qed.

(** X2. A run of [transcribe] reads one variable of the environment,
    [WHISPER_MODEL]: two environments that agree on it give the same run,
    calls and result.  When the import of the primary library fails, the
    environment plays no part at all: the secondary backend is not sized
    by [WHISPER_MODEL]. *)
Theorem environ_only_whisper_model
    (w : world) (audio_path language : string)
    (env env' : string -> option string) :
  (env "WHISPER_MODEL" = env' "WHISPER_MODEL" ->
   transcribe (with_environ w env) audio_path language
   = transcribe (with_environ w env') audio_path language)
  /\ (import_faster_whisper w <> None ->
      transcribe (with_environ w env) audio_path language
      = transcribe (with_environ w env') audio_path language).
Proof.
  split.
  - intros H. unfold transcribe.
    now rewrite (primary_environ w audio_path language env env' H).
  - intros Hi. destruct (import_faster_whisper w) as [e|] eqn:He; [|congruence].
    unfold transcribe.
    rewrite (primary_import_fails (with_environ w env) audio_path language e He).
    rewrite (primary_import_fails (with_environ w env') audio_path language e He).
    reflexivity.
Qed.

Lemma environ_only_whisper_model_witness :
  transcribe (with_environ Scenario.speech
                (fun k => if String.eqb k "WHISPER_MODEL" then Some "small"
                          else None))
             "speech.wav" "en"
  = transcribe (with_environ Scenario.speech (fun _ => Some "small"))
               "speech.wav" "en"
  /\ transcribe (with_environ Scenario.only_whisper (fun _ => Some "tiny"))
                "speech.wav" "de"
     = transcribe (with_environ Scenario.only_whisper (fun _ => None))
                  "speech.wav" "de".
Proof.
  split.
  - apply (proj1 (environ_only_whisper_model Scenario.speech "speech.wav" "en"
                    (fun k => if String.eqb k "WHISPER_MODEL" then Some "small"
                              else None)
                    (fun _ => Some "small"))).
    reflexivity.
  - apply (proj2 (environ_only_whisper_model Scenario.only_whisper
                    "speech.wav" "de" (fun _ => Some "tiny") (fun _ => None))).
    discriminate.
Defined.

(** ** The arguments of the calls *)

(** X3. Whatever the world answers, a run of [transcribe] constructs the
    primary model with the size named by [WHISPER_MODEL], or ["base"] when
    the variable is unset; calls its [transcribe] on the audio path it was
    given, with beam size 5, no word timestamps and the voice activity
    filter on; loads the secondary model ["base"] and no other; and neither
    tests a path nor prints. *)
Theorem call_arguments (w : world) (audio_path language : string) :
  (forall model_size device compute_type,
     In (EvWhisperModel model_size device compute_type)
        (fst (transcribe w audio_path language)) ->
     model_size = match environ w "WHISPER_MODEL" with
                  | Some size => size
                  | None => "base"
                  end)
  /\ (forall path hint beam_size word_timestamps vad_filter,
        In (EvFwTranscribe path hint beam_size word_timestamps vad_filter)
           (fst (transcribe w audio_path language)) ->
        path = audio_path /\ beam_size = 5%Z
        /\ word_timestamps = false /\ vad_filter = true)
  /\ (forall name,
        In (EvLoadModel name) (fst (transcribe w audio_path language)) ->
        name = "base")
  /\ (forall ev,
        In ev (fst (transcribe w audio_path language)) ->
        entry_of ev <> PathExists /\ entry_of ev <> Print).
Proof.
  pose proof (transcribe_calls w audio_path language) as Hall.
  rewrite Forall_forall in Hall.
  split; [|split; [|split]].
  - intros ms d c Hin. apply Hall in Hin. simpl in Hin. tauto.
  - intros path hint b wt vad Hin. apply Hall in Hin. simpl in Hin. tauto.
  - intros name Hin. apply Hall in Hin. exact Hin.
  - intros ev Hin. apply Hall in Hin.
    destruct ev; simpl in *; split; try discriminate; contradiction.
Qed.

(** ** An import that fails otherwise *)

(** X4. When the import of the primary library raises an exception that is
    an [Exception] but not an [ImportError], the run stops there: the
    import is its only call (no probe, no model, no secondary backend) and
    [transcribe] returns [success] false with the message of the exception
    as [error] and the empty string as [text]. *)
Theorem import_failure_without_fallback
    (w : world) (audio_path language : string) (e : exn) :
  import_faster_whisper w = Some e ->
  exn_class e = Exception ->
  transcribe w audio_path language
  = ([EvImportFasterWhisper],
     Normal [ ("success", PyBool false);
              ("error", PyStr (exn_str e));
              ("text", PyStr "") ]).
Proof.
  intros Hi Hc.
  rewrite transcribe_run, (primary_import_fails w audio_path language e Hi).
  now rewrite Hc.
Qed.

Lemma import_failure_without_fallback_witness :
  transcribe Scenario2.broken_import "speech.wav" "en"
  = ([EvImportFasterWhisper],
     Normal [ ("success", PyBool false);
              ("error", PyStr "libcudnn.so.8: cannot open shared object file");
              ("text", PyStr "") ]).
Proof.
  apply (import_failure_without_fallback Scenario2.broken_import
           "speech.wav" "en"
           (mkExn Exception "libcudnn.so.8: cannot open shared object file"));
    reflexivity.
Defined.

(** ** What [transcribe] lets through *)

Lemma fallback_handled_raises (e e' : exn) :
  fallback_handled e = Raised e' -> e' = e /\ exn_class e = BaseException.
Proof.
  unfold fallback_handled, isinstance_Exception.
  destruct (exn_class e); intros H; try discriminate.
  inversion H. now split.
Qed.

Lemma fallback_raises_inv (w : world) (audio_path language : string)
    (e : exn) :
  snd (fallback w audio_path language) = Raised e ->
  exn_class e = BaseException
  /\ secondary_error w audio_path language = Some e.
Proof.
  rewrite fallback_run. unfold secondary_error.
  destruct (import_whisper w) as [e1|]; simpl.
  { intros H. apply fallback_handled_raises in H as [-> Hc]. now split. }
  destruct (load_model w "base") as [m|e1]; simpl.
  - destruct (w_transcribe m audio_path language) as [r|e1]; intros H.
    + discriminate.
    + apply fallback_handled_raises in H as [-> Hc]. now split.
  - intros H. apply fallback_handled_raises in H as [-> Hc]. now split.
Qed.

Lemma primary_raises_inv (w : world) (audio_path language : string)
    (e : exn) :
  snd (primary w audio_path language) = Raised e ->
  import_faster_whisper w = Some e
  \/ (import_faster_whisper w = None
      /\ primary_error w audio_path language = Some e).
Proof.
  rewrite primary_run. unfold primary_error.
  destruct (import_faster_whisper w) as [e1|]; simpl.
  { intros H. left. congruence. }
  destruct (WhisperModel w _ _ _) as [m|e1]; simpl.
  - destruct (fw_transcribe m _ _ _ _ _) as [[segments info]|e1].
    + destruct (failure segments) as [e1|]; intros H; [|discriminate].
      right. split; congruence.
    + intros H. right. split; congruence.
  - intros H. right. split; congruence.
Qed.

(** X5. [transcribe] never lets an [Exception] through.  When a run of it
    ends with an exception, that exception is outside [Exception] (an
    interrupt, an exit request) and is the one a backend raised: at the
    import of the primary library, in the primary backend, or in the
    secondary backend during the fallback. *)
Theorem only_non_exceptions_escape
    (w : world) (audio_path language : string) (e : exn) :
  snd (transcribe w audio_path language) = Raised e ->
  exn_class e = BaseException
  /\ (import_faster_whisper w = Some e
      \/ (import_faster_whisper w = None
          /\ primary_error w audio_path language = Some e)
      \/ secondary_error w audio_path language = Some e).
Proof.
  rewrite transcribe_run.
  pose proof (primary_raises_inv w audio_path language) as Hp.
  destruct (primary w audio_path language) as [tr [d|e1]]; cbn [snd] in *.
  - discriminate.
  - destruct (exn_class e1) eqn:Hc; cbn [snd]; intros H.
    + apply fallback_raises_inv in H as [Hb Hs]. tauto.
    + discriminate.
    + inversion H; subst. split; [exact Hc|].
      destruct (Hp e eq_refl) as [Hi|Hi]; tauto.
Qed.

Lemma only_non_exceptions_escape_witness :
  exn_class (mkExn BaseException "KeyboardInterrupt") = BaseException
  /\ (import_faster_whisper Scenario2.interrupted
        = Some (mkExn BaseException "KeyboardInterrupt")
      \/ (import_faster_whisper Scenario2.interrupted = None
          /\ primary_error Scenario2.interrupted "speech.wav" "en"
             = Some (mkExn BaseException "KeyboardInterrupt"))
      \/ secondary_error Scenario2.interrupted "speech.wav" "en"
         = Some (mkExn BaseException "KeyboardInterrupt")).
Proof.
  apply (only_non_exceptions_escape Scenario2.interrupted "speech.wav" "en").
  reflexivity.
Defined.

(** X6. When the file exists and the primary backend, after a successful
    import, raises an exception outside [Exception], nothing catches it:
    the process ends with that exception, without an exit status of its
    own making, and without having printed anything; the secondary backend
    is not tried. *)
Theorem interrupt_prints_nothing
    (w : world) (prog audio_file : string) (rest : list string) (e : exn) :
  argv w = prog :: audio_file :: rest ->
  path_exists w audio_file = true ->
  import_faster_whisper w = None ->
  primary_error w audio_file (effective_language w) = Some e ->
  exn_class e = BaseException ->
  snd (main w) = Uncaught e
  /\ stdout (fst (main w)) = []
  /\ existsb is_secondary (fst (main w)) = false.
Proof.
  intros Ha Hp Hi He Hc.
  assert (effective_language w = match rest with [] => "en" | l :: _ => l end)
    as Hl by (unfold effective_language; rewrite Ha; now destruct rest).
  rewrite Hl in He.
  destruct (primary_raises w audio_file _ e Hi He) as [tr [Hrun Hsec]].
  assert (transcribe w audio_file (match rest with [] => "en" | l :: _ => l end)
          = (tr, Raised e)) as Ht
    by (now rewrite transcribe_run, Hrun, Hc).
  rewrite (main_calls_transcribe w prog audio_file rest tr _ Ha Hp Ht).
  split; [reflexivity|]. cbn [fst stdout existsb is_secondary orb].
  split; [|exact Hsec].
  replace tr with (fst (transcribe w audio_file
                          (match rest with [] => "en" | l :: _ => l end)))
    by now rewrite Ht.
  apply transcribe_silent.
Qed.

Lemma interrupt_prints_nothing_witness :
  snd (main Scenario2.interrupted)
    = Uncaught (mkExn BaseException "KeyboardInterrupt")
  /\ stdout (fst (main Scenario2.interrupted)) = []
  /\ existsb is_secondary (fst (main Scenario2.interrupted)) = false.
Proof.
  apply (interrupt_prints_nothing Scenario2.interrupted
           "transcribe.py" "speech.wav" []);
    reflexivity.
Defined.

(** ** How the script ends *)

(** X7. The script has three endings, each exactly under its condition.
    It ends itself with [sys.exit(1)] when [sys.argv] has fewer than two
    entries or the audio path does not exist; it reaches its last line,
    which is status 0, when both checks pass and [transcribe] returns a
    result; it is left by an exception [e] when both checks pass and
    [transcribe] raises [e].  The script never sets a status other than 0
    or 1 itself; after an escaped exception the exit status of the process
    is the interpreter's and is not stated here. *)
Theorem script_endings (w : world) :
  (snd (main w) = Exit 1
   <-> ((length (argv w) < 2)%nat
        \/ path_exists w (nth 1 (argv w) "") = false))
  /\ (snd (main w) = Exit 0
      <-> ((2 <= length (argv w))%nat
           /\ path_exists w (nth 1 (argv w) "") = true
           /\ exists result,
                snd (transcribe w (nth 1 (argv w) "") (effective_language w))
                = Normal result))
  /\ (forall e,
        snd (main w) = Uncaught e
        <-> ((2 <= length (argv w))%nat
             /\ path_exists w (nth 1 (argv w) "") = true
             /\ snd (transcribe w (nth 1 (argv w) "") (effective_language w))
                = Raised e))
  /\ (forall status, snd (main w) = Exit status ->
                     status = 0%Z \/ status = 1%Z).
Proof.
  rewrite main_run. unfold effective_language.
  destruct (argv w) as [|prog [|audio_file rest]].
  - cbn [snd length]. split; [|split; [|split]].
    + split; [intros _; left; lia | reflexivity].
    + split; [discriminate | intros [H _]; lia].
    + intros e. split; [discriminate | intros [H _]; lia].
    + intros status H. inversion H. now right.
  - cbn [snd length]. split; [|split; [|split]].
    + split; [intros _; left; lia | reflexivity].
    + split; [discriminate | intros [H _]; lia].
    + intros e. split; [discriminate | intros [H _]; lia].
    + intros status H. inversion H. now right.
  - assert ((if (2 <? length (prog :: audio_file :: rest))%nat
             then nth 2 (prog :: audio_file :: rest) "" else "en")
            = match rest with [] => "en" | l :: _ => l end) as ->
      by now destruct rest.
    cbn [nth length]. cbn zeta.
    destruct (path_exists w audio_file).
    + destruct (transcribe w audio_file _) as [tr [result|e]]; cbn [snd].
      * split; [|split; [|split]].
        -- split; [discriminate | intros [H|H]; [lia | discriminate]].
        -- split; [intros _; repeat split; [lia | eauto] | reflexivity].
        -- intros e. split; [discriminate | intros (_ & _ & H); discriminate].
        -- intros status H. inversion H. now left.
      * split; [|split; [|split]].
        -- split; [discriminate | intros [H|H]; [lia | discriminate]].
        -- split; [discriminate | intros (_ & _ & result & H); discriminate].
        -- intros e'. split.
           ++ intros H. inversion H; subst. repeat split. lia.
           ++ intros (_ & _ & H). inversion H; subst. reflexivity.
        -- discriminate.
    + cbn [snd]. split; [|split; [|split]].
      * split; [intros _; now right | reflexivity].
      * split; [discriminate | intros (_ & H & _); discriminate].
      * intros e. split; [discriminate | intros (_ & H & _); discriminate].
      * intros status H. inversion H. now right.
Qed.

(** ** Telling the results apart *)

Lemma fallback_result_no_duration (w : world) (audio_path language : string)
    (result : dict) :
  snd (fallback w audio_path language) = Normal result ->
  dict_get result "duration" = None.
Proof.
  intros H.
  destruct (fallback_result_cases w audio_path language result H)
    as [(r & ->) | (message & ->)]; reflexivity.
Qed.

(** X8. A result of [transcribe] carries a [duration] exactly when it was
    produced by the primary backend; such a run never touched the
    secondary backend. *)
Theorem duration_marks_primary
    (w : world) (audio_path language : string)
    (tr : list event) (result : dict) :
  transcribe w audio_path language = (tr, Normal result) ->
  (dict_get result "duration" <> None
   <-> primary w audio_path language = (tr, Normal result))
  /\ (dict_get result "duration" <> None ->
      existsb is_secondary tr = false).
Proof.
  intros Hrun.
  assert (dict_get result "duration" <> None ->
          primary w audio_path language = (tr, Normal result)) as Hfwd.
  { intros Hd. rewrite transcribe_run in Hrun.
    pose proof (fallback_result_no_duration w audio_path language) as Hf.
    destruct (primary w audio_path language) as [tr1 [d1|e1]]; [exact Hrun|].
    destruct (exn_class e1); inversion Hrun; subst.
    - exfalso. apply Hd. now apply Hf.
    - exfalso. now apply Hd. }
  split; [split; [exact Hfwd|]|].
  - intros Hp. apply primary_returns_inv in Hp.
    destruct Hp as (m & segments & info & _ & _ & _ & _ & ->). discriminate.
  - intros Hd. apply Hfwd, primary_returns_inv in Hd.
    destruct Hd as (m & segments & info & _ & _ & _ & -> & _).
    apply upto_inference_primary_only.
Qed.

#[warnings="-inexact-float"]
Lemma duration_marks_primary_witness :
  (dict_get [("success", PyBool true); ("text", PyStr "Hello world.");
             ("language", PyStr "en"); ("duration", PyFloat 3.2%float)]
            "duration" <> None
   <-> primary Scenario.speech "speech.wav" "en"
       = ([EvImportFasterWhisper; EvImportTorch;
           EvWhisperModel "base" "cpu" "int8";
           EvFwTranscribe "speech.wav" (Some "en") 5 false true],
          Normal [("success", PyBool true); ("text", PyStr "Hello world.");
                  ("language", PyStr "en"); ("duration", PyFloat 3.2%float)]))
  /\ (dict_get [("success", PyBool true); ("text", PyStr "Hello world.");
                ("language", PyStr "en"); ("duration", PyFloat 3.2%float)]
               "duration" <> None ->
      existsb is_secondary
        [EvImportFasterWhisper; EvImportTorch;
         EvWhisperModel "base" "cpu" "int8";
         EvFwTranscribe "speech.wav" (Some "en") 5 false true] = false).
Proof.
  apply (duration_marks_primary Scenario.speech "speech.wav" "en").
  vm_compute. reflexivity.
Defined.

(** X9. In every result [transcribe] returns, [success] is true exactly
    when there is no [error], and exactly when there is a [language]; the
    [error] and the [language], when present, are strings. *)
Theorem success_error_language
    (w : world) (audio_path language : string)
    (tr : list event) (result : dict) :
  transcribe w audio_path language = (tr, Normal result) ->
  (dict_get result "success" = Some (PyBool true)
   <-> dict_get result "error" = None)
  /\ (dict_get result "success" = Some (PyBool true)
      <-> exists detected, dict_get result "language" = Some (PyStr detected))
  /\ (dict_get result "success" = Some (PyBool false)
      <-> exists message, dict_get result "error" = Some (PyStr message)).
Proof.
  intros Hrun.
  destruct (transcribe_result_cases w audio_path language result)
    as [(segments & info & ->) | [(r & ->) | (message & ->)]];
    [now rewrite Hrun | | | ]; cbn.
  - split; [tauto|]. split; [split; eauto|].
    split; [discriminate | intros [m Hm]; discriminate].
  - split; [tauto|]. split; [split; eauto|].
    split; [discriminate | intros [m Hm]; discriminate].
  - split; [split; discriminate|].
    split; [split; [discriminate | intros [d Hd]; discriminate]|].
    split; eauto.
Qed.

Lemma success_error_language_witness :
  (dict_get (failure_result "Invalid model size 'base'") "success"
     = Some (PyBool true)
   <-> dict_get (failure_result "Invalid model size 'base'") "error" = None)
  /\ (dict_get (failure_result "Invalid model size 'base'") "success"
        = Some (PyBool true)
      <-> exists detected,
            dict_get (failure_result "Invalid model size 'base'") "language"
            = Some (PyStr detected))
  /\ (dict_get (failure_result "Invalid model size 'base'") "success"
        = Some (PyBool false)
      <-> exists message,
            dict_get (failure_result "Invalid model size 'base'") "error"
            = Some (PyStr message)).
Proof.
  apply (success_error_language Scenario.broken_model "speech.wav" "en"
           [EvImportFasterWhisper; EvImportTorch;
            EvWhisperModel "base" "cpu" "int8"]).
  reflexivity.
Defined.

(** ** No retry *)

Lemma NoDup_probe_entries (w : world) :
  map entry_of (probe_trace w) = [ImportTorch]
  \/ map entry_of (probe_trace w) = [ImportTorch; MpsIsAvailable].
Proof. unfold probe_trace. destruct (import_torch w); auto. Qed.

Ltac nodup_entries :=
  repeat (constructor;
          [cbn [In]; intuition discriminate|]);
  try constructor.

Lemma primary_entries (w : world) (audio_path language : string) :
  exists probe,
    (probe = [ImportTorch] \/ probe = [ImportTorch; MpsIsAvailable])
    /\ (map entry_of (fst (primary w audio_path language))
          = [ImportFasterWhisper]
        \/ map entry_of (fst (primary w audio_path language))
           = (ImportFasterWhisper :: probe ++ [ModelConstructor])%list
        \/ map entry_of (fst (primary w audio_path language))
           = (ImportFasterWhisper :: probe
                ++ [ModelConstructor; ModelTranscribe])%list).
Proof.
  exists (map entry_of (probe_trace w)).
  split; [apply NoDup_probe_entries|].
  rewrite primary_run.
  destruct (import_faster_whisper w); [now left|].
  destruct (WhisperModel w _ _ _); cbn [fst]; right.
  - right. unfold upto_inference, upto_model.
    rewrite ?map_app. cbn [map app]. rewrite ?map_app, <- ?app_assoc.
    reflexivity.
  - left. unfold upto_model. cbn [map]. now rewrite map_app.
Qed.

Lemma fallback_entries (w : world) (audio_path language : string) :
  map entry_of (fst (fallback w audio_path language)) = [ImportWhisper]
  \/ map entry_of (fst (fallback w audio_path language))
     = [ImportWhisper; LoadModel]
  \/ map entry_of (fst (fallback w audio_path language))
     = [ImportWhisper; LoadModel; WhisperTranscribe].
Proof.
  rewrite fallback_run.
  destruct (import_whisper w); [now left|].
  destruct (load_model w "base"); cbn; auto.
Qed.

Lemma transcribe_entries (w : world) (audio_path language : string)
    (ev : event) :
  In ev (fst (transcribe w audio_path language)) ->
  entry_of ev <> PathExists /\ entry_of ev <> Print.
Proof.
  intros Hin. pose proof (transcribe_calls w audio_path language) as Hall.
  rewrite Forall_forall in Hall. apply Hall in Hin.
  destruct ev; simpl in *; split; try discriminate; contradiction.
Qed.

Lemma NoDup_snoc {A} (l : list A) (x : A) :
  NoDup l -> ~ In x l -> NoDup (l ++ [x]).
Proof.
  intros Hl Hx. apply NoDup_app; [exact Hl | repeat constructor; intros [] |].
  intros y Hy [<- | []]. exact (Hx Hy).
Qed.

(** X10. No entry point of the outside world is used twice in a run: each
    library is imported at most once, each model constructed or loaded at
    most once, each [transcribe] method called at most once, the path
    tested at most once and at most one object printed.  There is no
    retry, in [transcribe] or around it. *)
Theorem each_entry_at_most_once (w : world) (audio_path language : string) :
  NoDup (map entry_of (fst (transcribe w audio_path language)))
  /\ NoDup (map entry_of (fst (main w))).
Proof.
  assert (forall a l, NoDup (map entry_of (fst (transcribe w a l)))) as Ht.
  { intros a l. rewrite transcribe_run.
    destruct (primary_entries w a l) as (probe & Hprobe & Hp).
    pose proof (fallback_entries w a l) as Hf.
    destruct (primary w a l) as [tr [d|e]]; cbn [fst] in *.
    - destruct Hprobe as [-> | ->], Hp as [-> | [-> | ->]];
        cbn [app]; nodup_entries.
    - destruct (exn_class e); cbn [fst]; rewrite ?map_app;
        destruct Hprobe as [-> | ->], Hp as [-> | [-> | ->]];
        try destruct Hf as [-> | [-> | ->]]; cbn [app]; nodup_entries. }
  split; [apply Ht|].
  rewrite main_run.
  destruct (argv w) as [|prog [|audio_file rest]]; [nodup_entries..|].
  cbn zeta. destruct (path_exists w audio_file); [|nodup_entries].
  pose proof (Ht audio_file (match rest with [] => "en" | l :: _ => l end))
    as Hnd.
  pose proof (transcribe_entries w audio_file
                (match rest with [] => "en" | l :: _ => l end)) as Hev.
  destruct (transcribe w audio_file _) as [tr [result|e]]; cbn [fst] in *.
  - cbn [map]. rewrite map_app. cbn [map].
    constructor.
    + rewrite in_app_iff. intros [Hin|[Hin|[]]]; [|discriminate].
      apply in_map_iff in Hin as (ev & Heq & Hin). destruct (Hev ev Hin) as [H1 H2]. cbn in Heq. congruence.
    + apply NoDup_snoc; [exact Hnd|].
      intros Hin. apply in_map_iff in Hin as (ev & Heq & Hin).
      destruct (Hev ev Hin) as [H1 H2]. cbn in Heq. congruence.
  - cbn [map]. constructor; [|exact Hnd].
    intros Hin. apply in_map_iff in Hin as (ev & Heq & Hin).
    destruct (Hev ev Hin) as [H1 H2]. cbn in Heq. congruence.
Qed.

(** ** A stream of segments that fails part-way *)

(** X11. When the primary backend has produced segments and then raises an
    [Exception] other than an [ImportError] while more are consumed, the
    segments already produced are lost: [transcribe] returns the failure
    with the message of the exception and an empty [text], the same for
    any segments and metadata, and the run ends at the call of the
    primary [transcribe]. *)
Theorem partial_transcript_discarded
    (w : world) (audio_path language : string) (model : fw_model)
    (segments : list Segment) (info : TranscriptionInfo) (e : exn) :
  import_faster_whisper w = None ->
  WhisperModel w (environ_get w "WHISPER_MODEL" "base") "cpu" "int8"
    = Normal model ->
  fw_transcribe model audio_path (language_hint language) 5 false true
    = Normal (mkStream segments (Some e), info) ->
  exn_class e = Exception ->
  transcribe w audio_path language
  = ((EvImportFasterWhisper :: probe_trace w
        ++ [EvWhisperModel (environ_get w "WHISPER_MODEL" "base") "cpu" "int8";
            EvFwTranscribe audio_path (language_hint language) 5 false true])%list,
     Normal [ ("success", PyBool false);
              ("error", PyStr (exn_str e));
              ("text", PyStr "") ]).
Proof.
  intros Hi Hm Ht Hc.
  rewrite transcribe_run.
  rewrite (primary_stream_fails w audio_path language model segments info e
             Hi Hm Ht), Hc.
  unfold upto_inference, upto_model, failure_result.
  cbn [app]. now rewrite <- app_assoc.
Qed.

Lemma partial_transcript_discarded_witness :
  transcribe Scenario2.truncated "speech.wav" "en"
  = ((EvImportFasterWhisper :: probe_trace Scenario2.truncated
        ++ [EvWhisperModel
              (environ_get Scenario2.truncated "WHISPER_MODEL" "base")
              "cpu" "int8";
            EvFwTranscribe "speech.wav" (language_hint "en") 5 false true])%list,
     Normal [ ("success", PyBool false);
              ("error", PyStr "Invalid data found when processing input");
              ("text", PyStr "") ]).
Proof.
  apply (partial_transcript_discarded Scenario2.truncated "speech.wav" "en"
           Scenario2.truncated_model
           [mkSegment " Hello "; mkSegment "world. "]
           (mkInfo (Some "en") 1.5%float)
           (mkExn Exception "Invalid data found when processing input"));
    reflexivity.
Defined.

(** ** Whitespace at the ends of the transcript *)

Module JoinFacts.
Import PyStr.

Lemma first_char_app (s t : string) :
  s <> "" -> first_char (s ++ t) = first_char s.
Proof. destruct s; [congruence | reflexivity]. Qed.

Lemma last_char_app (s t : string) :
  t <> "" -> last_char (s ++ t) = last_char t.
Proof.
  intros Ht. induction s as [|c s IH]; [reflexivity|].
  simpl. rewrite IH. destruct (s ++ t) eqn:E; [|reflexivity].
  destruct s; simpl in E; [congruence | discriminate].
Qed.

Lemma app_nonempty_r (s t : string) : t <> "" -> s ++ t <> "".
Proof. destruct s; simpl; [auto | discriminate]. Qed.

Lemma lstrip_blank (s : string) : all_space s = true -> lstrip s = "".
Proof.
  induction s as [|c s IH]; simpl; [reflexivity|].
  intros H. apply andb_prop in H as [Hc Hs]. rewrite Hc. auto.
Qed.

Lemma strip_of_blank (s : string) : all_space s = true -> strip s = "".
Proof. intros H. unfold strip. now rewrite lstrip_blank. Qed.

Lemma strip_nonblank (s : string) : all_space s = false -> strip s <> "".
Proof.
  intros H. unfold strip.
  destruct (PyStrFacts.lstrip_split s) as [l [Hs Hl]].
  pose proof (PyStrFacts.lstrip_first s) as Hf.
  destruct (lstrip s) as [|c t] eqn:E.
  - rewrite PyStrFacts.append_empty_r in Hs. subst l. congruence.
  - simpl in Hf. simpl. destruct (rstrip t); [rewrite Hf|]; discriminate.
Qed.

Lemma join_nonempty (sep : string) (p : string) (rest : list string) :
  p <> "" -> join sep (p :: rest) <> "".
Proof.
  intros Hp. destruct rest; simpl; [exact Hp|].
  destruct p; [congruence | discriminate].
Qed.

Lemma join_first (sep : string) (p : string) (rest : list string) :
  p <> "" -> first_char (join sep (p :: rest)) = first_char p.
Proof.
  intros Hp. destruct rest; [reflexivity|].
  change (join sep (p :: s :: rest)) with (p ++ sep ++ join sep (s :: rest)).
  now apply first_char_app.
Qed.

Lemma last_default {A} (x : A) (l : list A) (d d' : A) :
  last (x :: l) d = last (x :: l) d'.
Proof.
  revert x. induction l as [|y l IH]; intros x; [reflexivity|].
  change (last (y :: l) d = last (y :: l) d'). apply IH.
Qed.

Lemma join_last (sep : string) (parts : list string) (p : string) :
  Forall (fun q => q <> "") (p :: parts) ->
  last_char (join sep (p :: parts)) = last_char (last parts p).
Proof.
  revert p. induction parts as [|q rest IH]; intros p H; [reflexivity|].
  change (join sep (p :: q :: rest)) with (p ++ sep ++ join sep (q :: rest)).
  inversion H as [|? ? Hp Hrest]; subst.
  assert (join sep (q :: rest) <> "") as Hne
      by (apply join_nonempty; now inversion Hrest).
  rewrite last_char_app by now apply app_nonempty_r.
  rewrite last_char_app by exact Hne.
  rewrite (IH q Hrest). destruct rest; [reflexivity|].
  f_equal. change (last (q :: s :: rest) p) with (last (s :: rest) p).
  apply last_default.
Qed.

End JoinFacts.

Lemma stripped_last_not_space (texts : list string) (t : string) :
  PyStr.is_space_opt
    (PyStr.last_char (last (map PyStr.strip texts) (PyStr.strip t))) = false.
Proof.
  revert t. induction texts as [|u rest IH]; intros t.
  - simpl. apply PyStrFacts.strip_trimmed.
  - destruct rest as [|v rest'].
    + simpl. apply PyStrFacts.strip_trimmed.
    + exact (IH t).
Qed.

(** X12. Trimming is done per segment, not on the joined text.  When the
    primary backend succeeds and none of its segments is blank, the [text]
    neither starts nor ends with whitespace and is empty only when there
    is no segment.  A blank segment still takes its place in the join: if
    the first of several segments is blank, the [text] starts with the
    separating space. *)
Theorem transcript_outer_whitespace
    (w : world) (audio_path language : string) (model : fw_model)
    (segments : list Segment) (info : TranscriptionInfo) :
  import_faster_whisper w = None ->
  WhisperModel w (environ_get w "WHISPER_MODEL" "base") "cpu" "int8"
    = Normal model ->
  fw_transcribe model audio_path (language_hint language) 5 false true
    = Normal (mkStream segments None, info) ->
  exists tr result full_text,
    transcribe w audio_path language = (tr, Normal result)
    /\ dict_get result "text" = Some (PyStr full_text)
    /\ (forallb (fun s => negb (blank s)) segments = true ->
        PyStr.is_space_opt (PyStr.first_char full_text) = false
        /\ PyStr.is_space_opt (PyStr.last_char full_text) = false
        /\ (full_text = "" <-> segments = []))
    /\ (forall first second rest,
          segments = first :: second :: rest -> blank first = true ->
          PyStr.first_char full_text = Some " "%char).
Proof.
  intros Hi Hm Ht.
  exists (upto_inference w audio_path language),
         (primary_result language segments info),
         (PyStr.join " " (map (fun s => PyStr.strip (text s)) segments)).
  split.
  { rewrite transcribe_run.
    now rewrite (primary_succeeds w audio_path language model segments info
                   Hi Hm Ht). }
  split; [reflexivity|]. split.
  - intros Hnb. destruct segments as [|s rest].
    + repeat split; reflexivity.
    + assert (Forall (fun q => q <> "")
                (map (fun s => PyStr.strip (text s)) (s :: rest))) as Hall.
      { apply Forall_forall. intros q Hq.
        apply in_map_iff in Hq as (seg & <- & Hin).
        rewrite forallb_forall in Hnb. specialize (Hnb seg Hin).
        apply JoinFacts.strip_nonblank. unfold blank in Hnb.
        now destruct (PyStr.all_space (text seg)). }
      cbn [map] in *. inversion Hall as [|? ? Hs Hrest]; subst.
      split; [|split].
      * rewrite JoinFacts.join_first by exact Hs.
        apply PyStrFacts.strip_trimmed.
      * rewrite JoinFacts.join_last by exact Hall.
        rewrite <- (map_map text PyStr.strip).
        apply stripped_last_not_space.
      * split; [|discriminate].
        intros H. exfalso. revert H. now apply JoinFacts.join_nonempty.
  - intros first second rest -> Hb.
    cbn [map]. unfold blank in Hb.
    rewrite (JoinFacts.strip_of_blank _ Hb). reflexivity.
Qed.

#[warnings="-inexact-float"]
Lemma transcript_outer_whitespace_witness :
  exists tr result full_text,
    transcribe Scenario.speech "speech.wav" "en" = (tr, Normal result)
    /\ dict_get result "text" = Some (PyStr full_text)
    /\ (forallb (fun s => negb (blank s))
                [mkSegment " Hello "; mkSegment "world. "] = true ->
        PyStr.is_space_opt (PyStr.first_char full_text) = false
        /\ PyStr.is_space_opt (PyStr.last_char full_text) = false
        /\ (full_text = "" <-> [mkSegment " Hello "; mkSegment "world. "] = []))
    /\ (forall first second rest,
          [mkSegment " Hello "; mkSegment "world. "] = first :: second :: rest ->
          blank first = true ->
          PyStr.first_char full_text = Some " "%char).
Proof.
  eapply (transcript_outer_whitespace Scenario.speech "speech.wav" "en"
            Scenario.hello_model [mkSegment " Hello "; mkSegment "world. "]);
    reflexivity.
Defined.

(** A blank segment between two others leaves two spaces in a row. *)
Example blank_segment_keeps_separator :
  PyStr.join " " (map (fun s => PyStr.strip (text s))
                      [mkSegment "a "; mkSegment "   "; mkSegment " b"])
  = "a  b".
Proof. reflexivity. Qed.

(** ** The entry point and the backends together *)

Lemma main_contains_transcribe (w : world) (prog audio_file : string)
    (rest : list string) (ev : event) :
  argv w = prog :: audio_file :: rest ->
  path_exists w audio_file = true ->
  In ev (fst (transcribe w audio_file
                (match rest with [] => "en" | l :: _ => l end))) ->
  In ev (fst (main w)).
Proof.
  intros Ha Hp Hin. rewrite main_run, Ha. cbn zeta. rewrite Hp.
  destruct (transcribe w audio_file _) as [tr [result|e]]; cbn [fst] in *.
  - right. apply in_or_app. now left.
  - now right.
Qed.

Lemma In_transcribe_inference (w : world) (audio_path language : string)
    (model : fw_model) :
  import_faster_whisper w = None ->
  WhisperModel w (environ_get w "WHISPER_MODEL" "base") "cpu" "int8"
    = Normal model ->
  In (EvFwTranscribe audio_path (language_hint language) 5 false true)
     (fst (transcribe w audio_path language)).
Proof.
  intros Hi Hm. rewrite transcribe_run, primary_run, Hi, Hm.
  pose proof (In_upto_inference w audio_path language) as Hin.
  destruct (fw_transcribe model _ _ _ _ _) as [[[segments [e|]] info]|e];
    cbn [fst snd failure]; try exact Hin;
    destruct (exn_class e); cbn [fst snd]; try exact Hin;
    apply in_or_app; now left.
Qed.

(** X13. No backend is touched before the audio path has been found to
    exist: a run of the process that contains any call into a backend or
    the probe was given at least an audio path, that path exists, and the
    test of the path is the first thing the run did. *)
Theorem backend_needs_existing_file (w : world) :
  existsb is_backend (fst (main w)) = true ->
  exists prog audio_file rest tr,
    argv w = prog :: audio_file :: rest
    /\ path_exists w audio_file = true
    /\ fst (main w) = EvPathExists audio_file :: tr.
Proof.
  rewrite main_run.
  destruct (argv w) as [|prog [|audio_file rest]]; [discriminate..|].
  cbn zeta. destruct (path_exists w audio_file) eqn:Hp; [|discriminate].
  intros _. exists prog, audio_file, rest.
  destruct (transcribe w audio_file _) as [tr [result|e]]; cbn [fst].
  - exists (tr ++ [EvPrint result])%list. repeat split. exact Hp.
  - exists tr. repeat split. exact Hp.
Qed.

#[warnings="-inexact-float"]
Lemma backend_needs_existing_file_witness :
  exists prog audio_file rest tr,
    argv Scenario.speech = prog :: audio_file :: rest
    /\ path_exists Scenario.speech audio_file = true
    /\ fst (main Scenario.speech) = EvPathExists audio_file :: tr.
Proof.
  apply (backend_needs_existing_file Scenario.speech).
  vm_compute. reflexivity.
Defined.

(** X14. From the command line, the default language and the empty
    language differ.  With the audio path as the only argument the primary
    [transcribe] is called with the hint ["en"]; with an empty second
    argument it is called with no hint, which asks the backend to detect
    the language: the default applies only when the argument is absent. *)
Theorem command_line_language_hint
    (w : world) (prog audio_file : string) (model : fw_model) :
  path_exists w audio_file = true ->
  import_faster_whisper w = None ->
  WhisperModel w (environ_get w "WHISPER_MODEL" "base") "cpu" "int8"
    = Normal model ->
  (argv w = [prog; audio_file] ->
   In (EvFwTranscribe audio_file (Some "en") 5 false true) (fst (main w)))
  /\ (forall rest,
        argv w = prog :: audio_file :: "" :: rest ->
        In (EvFwTranscribe audio_file None 5 false true) (fst (main w)))
  /\ (forall language rest,
        argv w = prog :: audio_file :: language :: rest ->
        language <> "" ->
        In (EvFwTranscribe audio_file (Some language) 5 false true)
           (fst (main w))).
Proof.
  intros Hp Hi Hm. split; [|split].
  - intros Ha.
    apply (main_contains_transcribe w prog audio_file [] _ Ha Hp).
    exact (In_transcribe_inference w audio_file "en" model Hi Hm).
  - intros rest Ha.
    apply (main_contains_transcribe w prog audio_file ("" :: rest) _ Ha Hp).
    exact (In_transcribe_inference w audio_file "" model Hi Hm).
  - intros language rest Ha Hne.
    apply (main_contains_transcribe w prog audio_file (language :: rest) _ Ha Hp).
    rewrite <- (language_hint_nonempty language Hne).
    exact (In_transcribe_inference w audio_file language model Hi Hm).
Qed.

Lemma command_line_language_hint_witness :
  (argv Scenario2.empty_language = ["transcribe.py"; "speech.wav"] ->
   In (EvFwTranscribe "speech.wav" (Some "en") 5 false true)
      (fst (main Scenario2.empty_language)))
  /\ (forall rest,
        argv Scenario2.empty_language
          = "transcribe.py" :: "speech.wav" :: "" :: rest ->
        In (EvFwTranscribe "speech.wav" None 5 false true)
           (fst (main Scenario2.empty_language)))
  /\ (forall language rest,
        argv Scenario2.empty_language
          = "transcribe.py" :: "speech.wav" :: language :: rest ->
        language <> "" ->
        In (EvFwTranscribe "speech.wav" (Some language) 5 false true)
           (fst (main Scenario2.empty_language))).
Proof.
  apply (command_line_language_hint Scenario2.empty_language
           "transcribe.py" "speech.wav" Scenario.hello_model);
    reflexivity.
Defined.

(** The empty language on the command line, run. *)
#[warnings="-inexact-float"]
Example empty_language_run :
  main Scenario2.empty_language
  = ([EvPathExists "speech.wav"; EvImportFasterWhisper; EvImportTorch;
      EvWhisperModel "base" "cpu" "int8";
      EvFwTranscribe "speech.wav" None 5 false true;
      EvPrint [("success", PyBool true); ("text", PyStr "Hello world.");
               ("language", PyStr "en"); ("duration", PyFloat 3.2%float)]],
     Exit 0).
Proof. vm_compute. reflexivity. Qed.

(** ** When the probe runs *)

Lemma In_probe_trace (w : world) (ev : event) :
  In ev (probe_trace w) ->
  ev = EvImportTorch \/ (ev = EvMpsIsAvailable /\ import_torch w = None).
Proof.
  unfold probe_trace. destruct (import_torch w); cbn [In]; intuition.
Qed.

Lemma fallback_no_probe (w : world) (audio_path language : string)
    (ev : event) :
  In ev (fst (fallback w audio_path language)) -> is_probe ev = false.
Proof.
  rewrite fallback_run.
  destruct (import_whisper w); [|destruct (load_model w "base")];
    cbn [fst In]; intuition; subst; reflexivity.
Qed.

(** X15. The probe is reached only through a successful import of the
    primary library, and [is_available()] only through a successful
    [import torch]: a run in which the primary import fails makes no call
    of the probe, and a run in which [import torch] fails never asks
    [is_available()]. *)
Theorem probe_reached_after_imports
    (w : world) (audio_path language : string) (ev : event) :
  In ev (fst (transcribe w audio_path language)) ->
  is_probe ev = true ->
  import_faster_whisper w = None
  /\ (ev = EvMpsIsAvailable -> import_torch w = None).
Proof.
  rewrite transcribe_run, primary_run.
  pose proof (fallback_no_probe w audio_path language ev) as Hf.
  assert (forall tr, In ev (tr ++ fst (fallback w audio_path language))%list ->
                     is_probe ev = true -> In ev tr) as Hsplit.
  { intros tr Hin Hpr. apply in_app_or in Hin as [Hin|Hin]; [exact Hin|].
    rewrite (Hf Hin) in Hpr. discriminate. }
  assert (In ev (upto_inference w audio_path language) ->
          is_probe ev = true ->
          ev = EvMpsIsAvailable -> import_torch w = None) as Hinf.
  { unfold upto_inference, upto_model. intros Hin Hpr Hev. subst ev.
    destruct Hin as [Hin|Hin]; [discriminate|].
    rewrite <- app_assoc in Hin. apply in_app_or in Hin as [Hin|Hin].
    - apply In_probe_trace in Hin as [Hin|[_ Hin]]; [discriminate | exact Hin].
    - cbn [In app] in Hin. intuition discriminate. }
  assert (In ev (upto_model w) -> In ev (upto_inference w audio_path language))
    as Hsub by (intros Hin; unfold upto_inference; apply in_or_app; now left).
  destruct (import_faster_whisper w) as [e0|].
  - intros Hin Hpr. exfalso.
    assert (In ev [EvImportFasterWhisper]) as Hin'.
    { destruct (exn_class e0); cbn [fst] in Hin; auto. }
    destruct Hin' as [<-|[]]. discriminate.
  - destruct (WhisperModel w _ _ _) as [m|e1]; cbn [fst snd].
    + destruct (fw_transcribe m _ _ _ _ _) as [[segments info]|e1];
        [destruct (failure segments) as [e1|]|];
        try (destruct (exn_class e1)); cbn [fst];
        intros Hin Hpr; (split; [reflexivity|]); auto.
    + destruct (exn_class e1); cbn [fst];
        intros Hin Hpr; (split; [reflexivity|]); auto.
Qed.

Lemma probe_reached_after_imports_witness :
  import_faster_whisper Scenario.silence = None
  /\ (EvMpsIsAvailable = EvMpsIsAvailable -> import_torch Scenario.silence = None).
Proof.
  apply (probe_reached_after_imports Scenario.silence "silence.wav" ""
           EvMpsIsAvailable).
  - vm_compute. tauto.
  - reflexivity.
Defined.

(** ** What becomes of the primary [ImportError] *)

(** X16. The [ImportError] that sends a run to the fallback leaves no
    trace in the result: two runs that differ only in which [ImportError]
    the import of the primary library raised make the same calls and
    return the same value.  In particular a failure of the fallback
    reports the error of the secondary backend only. *)
Theorem primary_import_error_dropped
    (w : world) (audio_path language : string) (missing missing' : exn) :
  exn_class missing = ImportError ->
  exn_class missing' = ImportError ->
  transcribe (with_primary_import w (Some missing)) audio_path language
  = transcribe (with_primary_import w (Some missing')) audio_path language.
Proof.
  intros Hc Hc'. rewrite !transcribe_run.
  rewrite (primary_import_fails (with_primary_import w (Some missing))
             audio_path language missing eq_refl).
  rewrite (primary_import_fails (with_primary_import w (Some missing'))
             audio_path language missing' eq_refl).
  rewrite Hc, Hc'. reflexivity.
Qed.

Lemma primary_import_error_dropped_witness :
  transcribe (with_primary_import Scenario.no_backend
                (Some (mkExn ImportError "No module named 'faster_whisper'")))
             "speech.wav" "de"
  = transcribe (with_primary_import Scenario.no_backend
                  (Some (mkExn ImportError "DLL load failed")))
               "speech.wav" "de".
Proof.
  apply (primary_import_error_dropped Scenario.no_backend "speech.wav" "de");
    reflexivity.
Defined.
